(** * Documentation improver: fetch, critique, persist

    A shallow embedding of the analysis pipeline of the repository
    ([extractor.py], [analyzer.py], [database.py], [streamlit_app.py]) and the
    properties of its specification.

    Conventions of the embedding.
    - A Python [str] is a [string]; a value decoded from JSON, or stored in a
      [dict], is a [value]; a [dict] is an association list in insertion
      order, looked up by its first matching key.
    - A call that may raise returns a [result]; code that mutates the stores,
      sends requests or renders on the page threads a [World].
    - Whatever lies outside the repository (the interpreter's [str()]
      conversions, [hashlib.md5], [textstat], the HTTP endpoint, SQLite's
      rendering of a real number) is a field of [Runtime]; every theorem
      holds for every runtime. *)

From Stdlib Require Import ZArith Floats Sorted.
From stdpp Require Import gmap strings list pretty.

Set Warnings "-register-all".
Open Scope Z_scope.

(** ** Python values, exceptions and results *)

Inductive value :=
| VNone
| VBool (b : bool)
| VInt (n : Z)
| VFloat (x : float)
| VStr (s : string)
| VList (items : list value)
| VDict (entries : list (string * value)).

(** The exceptions the modelled code can meet, by the operation that raises
    them. *)
Inductive pyexn :=
| RequestException (msg : string)             (* raised inside [requests.post] *)
| AttributeError (v : value) (attr : string)  (* [v.attr] on a value without it *)
| TypeErrorIn (container : value)             (* [x in container], not a container *)
| TypeErrorSubscript (v key : value)          (* [v[key]], wrong kind of [v] or [key] *)
| KeyError (key : value)                      (* [d[key]], key missing *)
| TypeErrorSlice (v : value)                  (* [v[:k]] on a value without slices *)
| IndexError (v : value)                      (* [v[0]] on an empty sequence *)
| InterfaceError (v : value)                  (* sqlite3 cannot bind [v] *)
| OverflowError (n : Z)                       (* int too large for an SQLite INTEGER *)
| LibraryError (msg : string).                (* raised inside a third-party call *)

Inductive result (A : Type) :=
| Ok (a : A)
| Raise (e : pyexn).
Arguments Ok {A} a.
Arguments Raise {A} e.

Definition rbind {A B} (r : result A) (k : A -> result B) : result B :=
  match r with
  | Ok a => k a
  | Raise e => Raise e
  end.

Declare Scope result_scope.
Delimit Scope result_scope with result.
Notation "x <- r ;; k" := (rbind r (fun x => k))
  (at level 100, r at next level, right associativity) : result_scope.

(** ** Strings *)

(** [s[:k]]: the first [k] characters for [0 <= k], all but the last [-k]
    for a negative [k]. *)
Fixpoint str_take (n : nat) (s : string) : string :=
  match n, s with
  | S n', String c s' => String c (str_take n' s')
  | _, _ => EmptyString
  end.

Definition slice_to (k : Z) (s : string) : string :=
  if 0 <=? k then str_take (Z.to_nat k) s
  else str_take (Z.to_nat (Z.of_nat (String.length s) + k)) s.

Fixpoint prefixb (p s : string) : bool :=
  match p, s with
  | EmptyString, _ => true
  | String a p', String b s' => if Ascii.eqb a b then prefixb p' s' else false
  | String _ _, EmptyString => false
  end.

(** [needle in hay] on two strings. *)
Fixpoint substringb (needle hay : string) : bool :=
  prefixb needle hay ||
  match hay with
  | EmptyString => false
  | String _ hay' => substringb needle hay'
  end.

(** The specification of [substringb]: [needle] occurs in [hay]. *)
Definition contains (needle hay : string) : Prop :=
  exists before after, hay = before +:+ needle +:+ after.

(** Truthiness of an optional string ([None] and the empty string are falsy). *)
Definition truthy (o : option string) : bool :=
  match o with
  | Some (String _ _) => true
  | _ => false
  end.

(** ** Dictionaries and subscripts *)

Fixpoint dict_lookup (key : string) (d : list (string * value)) : option value :=
  match d with
  | [] => None
  | (k, v) :: d' => if String.eqb k key then Some v else dict_lookup key d'
  end.

(** [d.get(key, default)] on a dict. *)
Definition dict_get (key : string) (default : value) (d : list (string * value)) : value :=
  match dict_lookup key d with
  | Some v => v
  | None => default
  end.

(** [v.get(key, default)] on any value. *)
Definition get_method (v : value) (key : string) (default : value) : result value :=
  match v with
  | VDict d => Ok (dict_get key default d)
  | _ => Raise (AttributeError v "get")
  end.

Definition is_str (key : string) (v : value) : bool :=
  match v with
  | VStr s => String.eqb s key
  | _ => false
  end.

(** [key in v], for a string [key]. *)
Definition py_in (key : string) (v : value) : result bool :=
  match v with
  | VDict d => Ok (bool_decide (is_Some (dict_lookup key d)))
  | VList l => Ok (existsb (is_str key) l)
  | VStr s => Ok (substringb key s)
  | _ => Raise (TypeErrorIn v)
  end.

(** [v[key]], for a string [key]. *)
Definition getitem (v : value) (key : string) : result value :=
  match v with
  | VDict d =>
      match dict_lookup key d with
      | Some x => Ok x
      | None => Raise (KeyError (VStr key))
      end
  | _ => Raise (TypeErrorSubscript v (VStr key))
  end.

(** [v[0]]. *)
Definition getitem0 (v : value) : result value :=
  match v with
  | VList (x :: _) => Ok x
  | VList [] => Raise (IndexError v)
  | VStr (String c _) => Ok (VStr (String c EmptyString))
  | VStr EmptyString => Raise (IndexError v)
  | VDict _ => Raise (KeyError (VInt 0))
  | _ => Raise (TypeErrorSubscript v (VInt 0))
  end.

(** ** The outside world *)

(** The body of the POST sent to the text-generation endpoint. *)
Module Request.
Record t := {
  authorization : string;   (* the Authorization header *)
  model : string;
  content : string          (* the single user message *)
}.
End Request.

(** What [requests.post] hands back; [json] is [None] when [response.json()]
    raises [ValueError]. *)
Module Response.
Record t := {
  status_code : Z;
  text : string;
  json : option value
}.
End Response.

Inductive http_outcome :=
| PostRaised (e : pyexn)
| PostReturned (r : Response.t).

(** The crawler's result object, by the attributes the fetcher looks at; an
    absent attribute is [None]. The [markdown] attribute, when the result
    has it, holds a markdown object or Python's [None] (the inner [None]),
    which is what the crawler leaves there for a page it could not load. A
    markdown object stands for its raw text when used as a string, and its
    [fit_markdown] is [None] when the attribute is absent or holds no
    text. *)
Module Markdown.
Record t := {
  raw : string;
  fit_markdown : option string
}.
End Markdown.

Module CrawlResult.
Record t := {
  markdown : option (option Markdown.t);
  title : option string
}.
End CrawlResult.

Inductive crawl_outcome :=
| CrawlRaised (e : pyexn)
| CrawlReturned (r : CrawlResult.t).

(** A cell of the [sessions] table. Every column is declared [TEXT], so a
    stored cell is NULL or text. *)
Inductive cell :=
| CNull
| CText (s : string).

(** One record handed to [collection.add]. *)
Module ChromaRecord.
Record t := {
  document : string;
  metadata : list (string * value);
  id : string
}.
End ChromaRecord.

Record Runtime := {
  py_repr : value -> string;              (* [str(v)] for a [v] that is not a [str] *)
  exn_text : pyexn -> string;             (* [str(e)] *)
  md5_hexdigest : string -> string;       (* [hashlib.md5(s.encode()).hexdigest()] *)
  flesch_reading_ease : string -> result float;
  flesch_reading_ease_none : result float;  (* the same call on [None] *)
  arun : string -> crawl_outcome;         (* the [try] of the fetcher up to [result] *)
  http_post : list Request.t -> Request.t -> http_outcome;
                                          (* the endpoint, given the requests before *)
  sqlite_real : float -> cell;            (* a REAL stored in a TEXT column *)
  collection_add_error : string -> list ChromaRecord.t -> ChromaRecord.t -> option pyexn
                                          (* what [collection.add] raises, if anything,
                                             for a collection, its records and the
                                             record to add *)
}.

(** ** extractor.py *)

Module Extraction.
Record t := {
  content : option string;  (* [None] is Python's [None] *)
  title : string;
  url : string;
  success : bool;
  error : option string     (* the key is absent on success *)
}.
End Extraction.

Section Extractor.
Variable rt : Runtime.

Definition fetch_article_text_async (url : string) : Extraction.t :=
  match arun rt url with
  | CrawlReturned result =>
      match CrawlResult.markdown result with
      | Some markdown =>
          let markdown_content :=
            match markdown with
            | Some md =>
                Some (if truthy (Markdown.fit_markdown md)
                      then default EmptyString (Markdown.fit_markdown md)
                      else Markdown.raw md)
            | None => None
            end in
          {| Extraction.content := markdown_content;
             Extraction.title := default EmptyString (CrawlResult.title result);
             Extraction.url := url;
             Extraction.success := true;
             Extraction.error := None |}
      | None =>
          {| Extraction.content := Some EmptyString;
             Extraction.title := EmptyString;
             Extraction.url := url;
             Extraction.success := false;
             Extraction.error := Some "Failed to extract content" |}
      end
  | CrawlRaised e =>
      {| Extraction.content := Some EmptyString;
         Extraction.title := EmptyString;
         Extraction.url := url;
         Extraction.success := false;
         Extraction.error := Some (exn_text rt e) |}
  end.

Definition fetch_article_text (url : string) : Extraction.t :=
  fetch_article_text_async url.

Definition format_markdown_for_display (markdown : string) (max_length : Z) : string :=
  match markdown with
  | EmptyString => EmptyString
  | _ =>
      if max_length <? Z.of_nat (String.length markdown)
      then slice_to max_length markdown +:+ "..."
      else markdown
  end.
End Extractor.

(** ** database.py *)

(** One row of [sessions], as [SELECT *] returns it. The two identifiers are
    bound from [str] arguments, so they are always text. *)
Module Row.
Record t := {
  session_id : string;
  url : string;
  readability : cell;
  structure : cell;
  completeness : cell;
  style : cell
}.
End Row.

(** The manager and the two stores behind it: the table as its rows with
    their rowids, in the order a table scan visits them; each collection of
    the content store as the records it holds, oldest first; the cache of
    collection handles as the set of cached names. *)
Record DatabaseManager := {
  sessions : list (Z * Row.t);
  chroma : gmap string (list ChromaRecord.t);
  collections : gset string
}.

(** [init_databases] on an empty directory. *)
Definition init_databases : DatabaseManager :=
  {| sessions := []; chroma := ∅; collections := ∅ |}.

Definition int64 (n : Z) : bool := (- 2 ^ 63 <=? n) && (n <? 2 ^ 63).

(** The rowid of the next inserted row: one more than the largest in use. *)
Definition next_rowid (table : list (Z * Row.t)) : Z :=
  1 + foldr (fun r m => Z.max r.1 m) 0 table.

(** [ORDER BY rowid DESC], as an insertion sort on the rowid. *)
Fixpoint insert_desc (x : Z * Row.t) (l : list (Z * Row.t)) : list (Z * Row.t) :=
  match l with
  | [] => [x]
  | y :: l' => if y.1 <=? x.1 then x :: l else y :: insert_desc x l'
  end.

Definition order_by_rowid_desc (table : list (Z * Row.t)) : list (Z * Row.t) :=
  foldr insert_desc [] table.

(** [LIMIT n]: a negative [n] is no limit at all. *)
Definition sql_limit {A} (n : Z) (rows : list A) : list A :=
  if n <? 0 then rows else take (Z.to_nat n) rows.

(** Whether a collection holds a record under an id. *)
Definition has_id (id : string) (records : list ChromaRecord.t) : bool :=
  existsb (fun r => String.eqb (ChromaRecord.id r) id) records.

Section Database.
Variable rt : Runtime.

(** [str(v)], and [f"{v}"]. *)
Definition py_str (v : value) : string :=
  match v with
  | VStr s => s
  | _ => py_repr rt v
  end.

(** What sqlite3 stores when [v] is bound to a [TEXT] column. *)
Definition sqlite_bind (v : value) : result cell :=
  match v with
  | VNone => Ok CNull
  | VStr s => Ok (CText s)
  | VBool b => Ok (CText (if b then "1" else "0"))
  | VInt n => if int64 n then Ok (CText (pretty n)) else Raise (OverflowError n)
  | VFloat x => Ok (sqlite_real rt x)
  | VList _ | VDict _ => Raise (InterfaceError v)
  end.

Definition get_url_collection (url : string) (self : DatabaseManager)
  : string * DatabaseManager :=
  let url_hash := md5_hexdigest rt url in
  let collection_name := "url_" +:+ url_hash in
  if bool_decide (collection_name ∈ collections self)
  then (collection_name, self)
  else
    (collection_name,
     {| sessions := sessions self;
        chroma := match chroma self !! collection_name with
                  | Some _ => chroma self
                  | None => <[collection_name := []]> (chroma self)
                  end;
        collections := {[collection_name]} ∪ collections self |}).

(** [collection.add] of one record, once it is accepted: a record whose id
    the collection already holds is ignored, any other is kept after the
    records that are there. *)
Definition collection_add (collection : string) (r : ChromaRecord.t)
    (self : DatabaseManager) : DatabaseManager :=
  if has_id (ChromaRecord.id r) (default [] (chroma self !! collection))
  then self
  else
    {| sessions := sessions self;
       chroma := <[collection := default [] (chroma self !! collection) ++ [r]]>
                   (chroma self);
       collections := collections self |}.

(** The readability column: the narrative of the nested dictionary, or the
    value itself when it is not a dictionary. *)
Definition readability_text (analysis_results : list (string * value)) : result value :=
  (r <- getitem (VDict analysis_results) "readability" ;;
   match r with
   | VDict _ => getitem r "analysis"
   | _ => Ok r
   end)%result.

(** The six values of the INSERT, in the order the tuple evaluates them. *)
Definition insert_values (session_id url : string)
    (analysis_results : list (string * value)) : result Row.t :=
  (readability <- readability_text analysis_results ;;
   structure <- getitem (VDict analysis_results) "structure" ;;
   completeness <- getitem (VDict analysis_results) "completeness" ;;
   style <- getitem (VDict analysis_results) "style" ;;
   c_readability <- sqlite_bind readability ;;
   c_structure <- sqlite_bind structure ;;
   c_completeness <- sqlite_bind completeness ;;
   c_style <- sqlite_bind style ;;
   Ok {| Row.session_id := session_id;
         Row.url := url;
         Row.readability := c_readability;
         Row.structure := c_structure;
         Row.completeness := c_completeness;
         Row.style := c_style |})%result.

(** The metadata of the content entry. *)
Definition content_metadata (session_id url : string)
    (analysis_results : list (string * value)) : list (string * value) :=
  [("session_id", VStr session_id);
   ("url", VStr url);
   ("analysis_summary",
    VStr ("Readability: " +:+
          py_str (dict_get "readability_score" (VStr "N/A") analysis_results)))].

(** [save_analysis]: the row is inserted and committed first; the content
    entry follows, and an exception of [collection.add] leaves the row (and
    the collection, if it had to be created) behind. The collection's name
    is always well formed, and [get_or_create_collection] returns. *)
Definition save_analysis (session_id url content : string)
    (analysis_results : list (string * value)) (self : DatabaseManager)
  : result unit * DatabaseManager :=
  match insert_values session_id url analysis_results with
  | Raise e => (Raise e, self)
  | Ok row =>
      let self1 :=
        {| sessions := sessions self ++ [(next_rowid (sessions self), row)];
           chroma := chroma self;
           collections := collections self |} in
      let '(collection, self2) := get_url_collection url self1 in
      let record :=
        {| ChromaRecord.document := content;
           ChromaRecord.metadata := content_metadata session_id url analysis_results;
           ChromaRecord.id := session_id |} in
      match collection_add_error rt collection
              (default [] (chroma self2 !! collection)) record with
      | Some e => (Raise e, self2)
      | None => (Ok tt, collection_add collection record self2)
      end
  end.

Definition get_recent_sessions (limit : Z) (self : DatabaseManager)
  : result (list (string * string * Z)) :=
  if int64 limit
  then Ok ((fun r => (Row.session_id r.2, Row.url r.2, r.1)) <$>
           sql_limit limit (order_by_rowid_desc (sessions self)))
  else Raise (OverflowError limit).

Definition get_all_sessions (self : DatabaseManager) : list (Row.t * Z) :=
  (fun r => (r.2, r.1)) <$> order_by_rowid_desc (sessions self).

(** [fetchone] after [SELECT * ... WHERE session_id = ?]: the first match
    of the table scan, or [None]. *)
Definition get_session (session_id : string) (self : DatabaseManager) : option Row.t :=
  snd <$> List.find (fun r => String.eqb (Row.session_id r.2) session_id) (sessions self).
End Database.

(** ** The application state *)

(** [st.session_state]. *)
Record SessionState := {
  current_page : string;
  selected_session : option string;
  analysis_results : option (list (string * value));
  article_text : option string
}.

(** What the script puts on the page. *)
Inductive element :=
| StMarkdown (body : string)
| StError (body : string).

(** Everything a run of the script can change: the stores, the requests sent
    to the endpoint (oldest first), the session state and the page. *)
Record World := {
  db_manager : DatabaseManager;
  outbox : list Request.t;
  session_state : SessionState;
  page : list element
}.

Definition with_db (w : World) (d : DatabaseManager) : World :=
  {| db_manager := d; outbox := outbox w;
     session_state := session_state w; page := page w |}.

Definition with_state (w : World) (s : SessionState) : World :=
  {| db_manager := db_manager w; outbox := outbox w;
     session_state := s; page := page w |}.

Definition render (e : element) (w : World) : World :=
  {| db_manager := db_manager w; outbox := outbox w;
     session_state := session_state w; page := page w ++ [e] |}.

(** A computation on the world that may raise. *)
Definition M (A : Type) : Type := World -> result A * World.

Definition ret {A} (a : A) : M A := fun w => (Ok a, w).

Definition bind {A B} (m : M A) (k : A -> M B) : M B :=
  fun w =>
    match m w with
    | (Ok a, w') => k a w'
    | (Raise e, w') => (Raise e, w')
    end.

Definition lift {A} (r : result A) : M A := fun w => (r, w).

Declare Scope world_scope.
Delimit Scope world_scope with world.
Notation "x <- m ;; k" := (bind m (fun x => k))
  (at level 100, m at next level, right associativity) : world_scope.

(** ** analyzer.py *)

Definition readability_prompt_head : string :=
"
        Analyze the readability of this documentation article for a non-technical marketer:
        1. The Flesch Reading Ease score is ".

Definition readability_prompt_body : string :=
".
        2. Explain what this score means in the context of marketing documentation.
        3. Identify 3-4 specific sentences or paragraphs that affect readability.
        4. Provide specific, actionable suggestions to improve readability for marketers.
        
        Format your response with these specific markdown sections:
        ## Assessment
        [Your assessment of the readability and what the score means]
        
        ## Problem Areas
        [List the specific sentences or paragraphs that affect readability]
        
        ## Actionable Suggestions
        [List numbered, specific suggestions for improvement]
        
        Article: ".

Definition readability_prompt_tail : string :=
"
        ".

Definition structure_prompt_head : string :=
"
        Analyze the structure and flow of this documentation article:
        1. Evaluate the use of headings, subheadings, paragraph length, and lists.
        2. Assess if information flows logically and is easy to navigate.
        3. Identify 3-4 specific structural issues that could be improved.
        4. Provide specific, actionable suggestions for better structure and flow.
        
        Format your response with these specific markdown sections:
        ## Assessment
        [Your assessment of the overall structure and flow]
        
        ## Structural Elements
        [Analysis of headings, subheadings, paragraph length, lists, etc.]
        
        ## Flow Issues
        [Specific issues with information flow and navigation]
        
        ## Improvement Suggestions
        [Numbered, specific suggestions for improvement]
        
        Article: ".

Definition structure_prompt_tail : string :=
"
        ".

Definition completeness_prompt_head : string :=
"
        Analyze the completeness of information and examples in this documentation article:
        1. Assess if there's enough detail to understand and implement the feature or concept.
        2. Evaluate the quality and quantity of examples provided.
        3. Identify 3-4 specific areas where more information or examples are needed.
        4. Provide specific, actionable suggestions for improving completeness.
        
        Format your response with these specific markdown sections:
        ## Assessment
        [Your assessment of the overall completeness]
        
        ## Information Gaps
        [Specific areas where more information is needed]
        
        ## Example Quality
        [Assessment of examples provided and what's missing]
        
        ## Improvement Suggestions
        [Numbered, specific suggestions for adding information or examples]
        
        Article: ".

Definition completeness_prompt_tail : string :=
"
        ".

Definition style_prompt_head : string :=
"
        Analyze this article using Microsoft's Style Guide principles, focusing on:
        1. Voice and Tone: Is it customer-focused, clear, and concise?
        2. Clarity and Conciseness: Are there complex sentences or jargon that could be simplified?
        3. Action-oriented language: Does it guide the user effectively?
        4. Identify 3-4 specific style issues that should be addressed.
        5. Provide specific, actionable suggestions for improving style adherence.
        
        Format your response with these specific markdown sections:
        ## Assessment
        [Your overall assessment of style guide adherence]
        
        ## Voice and Tone
        [Analysis of customer focus, clarity, and conciseness]
        
        ## Language Issues
        [Specific examples of complex sentences, jargon, or passive voice]
        
        ## Improvement Suggestions
        [Numbered, specific suggestions for style improvements]
        
        Article: ".

Definition style_prompt_tail : string :=
"
        ".


Definition api_key_sentinel : string :=
  "Error: API key is not set. Please add your API key to the .env file as OPENROUTER_API_KEY.".

Record DocumentAnalyzer := {
  api_key : option string
}.

Section Analyzer.
Variable rt : Runtime.
Variable self : DocumentAnalyzer.

(** The body of the [try] of [_ask_llm] once the endpoint has answered. *)
Definition read_response (response : Response.t) : result value :=
  match Response.json response with
  | None => Ok (VStr ("API Error: Non-JSON response - " +:+ Response.text response))
  | Some response_json =>
      if negb (Response.status_code response =? 200)
      then
        (e <- get_method response_json "error" response_json ;;
         Ok (VStr ("API Error: HTTP " +:+ pretty (Response.status_code response)
                   +:+ " - " +:+ py_str rt e)))%result
      else
        (has_error <- py_in "error" response_json ;;
         if has_error : bool
         then
           e <- getitem response_json "error" ;;
           Ok (VStr ("API Error: " +:+ py_str rt e))
         else
           has_choices <- py_in "choices" response_json ;;
           if negb has_choices
           then Ok (VStr ("Unexpected API response format: " +:+ py_str rt response_json))
           else
             choices <- getitem response_json "choices" ;;
             first <- getitem0 choices ;;
             message <- getitem first "message" ;;
             getitem message "content")%result
  end.

Definition build_request (prompt : string) : Request.t :=
  {| Request.authorization := "Bearer " +:+ default EmptyString (api_key self);
     Request.model := "meta-llama/llama-3.3-8b-instruct:free";
     Request.content := prompt |}.

(** [_ask_llm] never raises: every exception of the [try] becomes text. *)
Definition _ask_llm (prompt : string) (w : World) : value * World :=
  if negb (truthy (api_key self))
  then (VStr api_key_sentinel, w)
  else
    let request := build_request prompt in
    let w' := {| db_manager := db_manager w;
                 outbox := outbox w ++ [request];
                 session_state := session_state w;
                 page := page w |} in
    let answered :=
      match http_post rt (outbox w) request with
      | PostRaised e => Raise e
      | PostReturned response => read_response response
      end in
    match answered with
    | Ok v => (v, w')
    | Raise e => (VStr ("Error connecting to API: " +:+ exn_text rt e), w')
    end.

Definition readability_prompt (text : string) (readability_score : float) : string :=
  readability_prompt_head +:+ py_str rt (VFloat readability_score) +:+
  readability_prompt_body +:+ slice_to 2000 text +:+ readability_prompt_tail.

Definition structure_prompt (text : string) : string :=
  structure_prompt_head +:+ slice_to 2000 text +:+ structure_prompt_tail.

Definition completeness_prompt (text : string) : string :=
  completeness_prompt_head +:+ slice_to 2000 text +:+ completeness_prompt_tail.

Definition style_prompt (text : string) : string :=
  style_prompt_head +:+ slice_to 2000 text +:+ style_prompt_tail.

Definition _analyze_readability (text : string) (readability_score : float)
  : World -> value * World :=
  _ask_llm (readability_prompt text readability_score).

Definition _analyze_structure (text : string) : World -> value * World :=
  _ask_llm (structure_prompt text).

Definition _analyze_completeness (text : string) : World -> value * World :=
  _ask_llm (completeness_prompt text).

Definition _analyze_style (text : string) : World -> value * World :=
  _ask_llm (style_prompt text).

(** A call that cannot raise, as a computation. *)
Definition total {A} (f : World -> A * World) : M A :=
  fun w => let '(a, w') := f w in (Ok a, w').

(** [self.db_manager.save_analysis], on the manager shared with the script. *)
Definition db_save_analysis (session_id url content : string)
    (results : list (string * value)) : M unit :=
  fun w =>
    let '(r, d) := save_analysis rt session_id url content results (db_manager w) in
    (r, with_db w d).

Definition analyze_document (session_id url text : string)
  : M (list (string * value)) :=
  (readability_score <- lift (flesch_reading_ease rt text) ;;
   readability <- total (_analyze_readability text readability_score) ;;
   structure <- total (_analyze_structure text) ;;
   completeness <- total (_analyze_completeness text) ;;
   style <- total (_analyze_style text) ;;
   let results :=
     [("readability", VDict [("score", VFloat readability_score);
                             ("analysis", readability)]);
      ("structure", structure);
      ("completeness", completeness);
      ("style", style)] in
   _ <- db_save_analysis session_id url text results ;;
   ret results)%world.

(** [analyze_document(session_id, url, None)]: whatever the scorer makes of
    [None], the first prompt cannot slice it, so the call raises before any
    request and any save. *)
Definition analyze_document_none : M (list (string * value)) :=
  (_ <- lift (flesch_reading_ease_none rt) ;;
   lift (Raise (TypeErrorSlice VNone)))%world.
End Analyzer.

(** ** streamlit_app.py *)

(** How [analyze_url] ends: it returns, or [st.rerun()] restarts the script. *)
Inductive control :=
| Returned
| Rerun.

Section App.
Variable rt : Runtime.
Variable analyzer : DocumentAnalyzer.

(** The dictionary kept in [st.session_state.analysis_results]. *)
Definition displayed_results (session_id url : string) (article_text : option string)
    (analysis_result : list (string * value)) : result (list (string * value)) :=
  (r1 <- getitem (VDict analysis_result) "readability" ;;
   readability <- getitem r1 "analysis" ;;
   r2 <- getitem (VDict analysis_result) "readability" ;;
   readability_score <- getitem r2 "score" ;;
   structure <- getitem (VDict analysis_result) "structure" ;;
   completeness <- getitem (VDict analysis_result) "completeness" ;;
   style <- getitem (VDict analysis_result) "style" ;;
   Ok [("session_id", VStr session_id);
       ("url", VStr url);
       ("readability", readability);
       ("readability_score", readability_score);
       ("structure", structure);
       ("completeness", completeness);
       ("style", style);
       ("article_text", match article_text with
                        | Some text => VStr text
                        | None => VNone
                        end)])%result.

(** [analyze_url(url)], where [uuid] is the identifier [uuid.uuid4()] draws.
    The content of a successful extraction is a text or [None]; the preview
    of [None] is the empty text. *)
Definition analyze_url (uuid : string) (url : string) (w : World) : control * World :=
  let session_id := uuid in
  let extraction_result := fetch_article_text rt url in
  if Extraction.success extraction_result
  then
    let content := Extraction.content extraction_result in
    let w1 :=
      with_state w
        {| current_page := current_page (session_state w);
           selected_session := selected_session (session_state w);
           analysis_results := analysis_results (session_state w);
           article_text := content |} in
    let preview :=
      match content with
      | Some text => format_markdown_for_display text 1500
      | None => EmptyString
      end in
    let w2 := render (StMarkdown preview) w1 in
    let analysis :=
      match content with
      | Some text => analyze_document rt analyzer session_id url text
      | None => analyze_document_none rt
      end in
    match analysis w2 with
    | (Raise e, w3) => (Returned, render (StError ("Error: " +:+ exn_text rt e)) w3)
    | (Ok analysis_result, w3) =>
        let w4 :=
          with_state w3
            {| current_page := current_page (session_state w3);
               selected_session := Some session_id;
               analysis_results := analysis_results (session_state w3);
               article_text := article_text (session_state w3) |} in
        match displayed_results session_id url content analysis_result with
        | Raise e => (Returned, render (StError ("Error: " +:+ exn_text rt e)) w4)
        | Ok shown =>
            (Rerun,
             with_state w4
               {| current_page := "results";
                  selected_session := Some session_id;
                  analysis_results := Some shown;
                  article_text := article_text (session_state w4) |})
        end
    end
  else
    (Returned,
     render (StError ("Failed to extract content: " +:+
                      default "Unknown error" (Extraction.error extraction_result))) w).
End App.


(** ** Histories and scripted runtimes *)

(** One call of [save_analysis], by its arguments. *)
Module Save.
Record t := {
  session_id : string;
  url : string;
  content : string;
  analysis_results : list (string * value)
}.
End Save.

(** The manager after a sequence of saves on fresh stores; a save that
    raises leaves whatever it had written. *)
Definition db_after (rt : Runtime) (history : list Save.t) : DatabaseManager :=
  foldl (fun db c =>
           (save_analysis rt (Save.session_id c) (Save.url c) (Save.content c)
              (Save.analysis_results c) db).2)
        init_databases history.

(** The rows a history inserts, oldest first. *)
Definition inserted (rt : Runtime) (history : list Save.t) : list Row.t :=
  omap (fun c =>
          match insert_values rt (Save.session_id c) (Save.url c)
                  (Save.analysis_results c) with
          | Ok row => Some row
          | Raise _ => None
          end) history.

(** Rows numbered from [k] on. *)
Fixpoint number_from (k : Z) (rows : list Row.t) : list (Z * Row.t) :=
  match rows with
  | [] => []
  | r :: rows' => (k, r) :: number_from (k + 1) rows'
  end.

(** The results dictionary [analyze_document] assembles. *)
Definition make_results (score : float) (readability structure completeness style : value)
  : list (string * value) :=
  [("readability", VDict [("score", VFloat score); ("analysis", readability)]);
   ("structure", structure);
   ("completeness", completeness);
   ("style", style)].

(** What Python reads back from a cell. *)
Definition cell_value (c : cell) : value :=
  match c with
  | CNull => VNone
  | CText s => VStr s
  end.

Definition fields (row : Row.t) : list value :=
  [VStr (Row.session_id row); VStr (Row.url row);
   cell_value (Row.readability row); cell_value (Row.structure row);
   cell_value (Row.completeness row); cell_value (Row.style row)].

(** The columns [get_recent_sessions] selects, read off a row of
    [get_all_sessions]. *)
Definition summary (s : Row.t * Z) : string * string * Z :=
  (Row.session_id s.1, Row.url s.1, s.2).

(** A runtime with a scripted crawler and endpoint, for running the model on
    examples: conversions print a placeholder, the hash is the identity, the
    content store refuses an empty id and nothing else. *)
Definition scripted (crawl : crawl_outcome) (answer : http_outcome) : Runtime :=
  {| py_repr := fun _ => "<value>";
     exn_text := fun e =>
       match e with
       | RequestException msg | LibraryError msg => msg
       | _ => "<exception>"
       end;
     md5_hexdigest := fun s => s;
     flesch_reading_ease := fun _ => Ok 100%float;
     flesch_reading_ease_none := Raise (LibraryError "expected a string");
     arun := fun _ => crawl;
     http_post := fun _ _ => answer;
     sqlite_real := fun _ => CNull;
     collection_add_error := fun _ _ r =>
       match ChromaRecord.id r with
       | EmptyString => Some (LibraryError "expected a non-empty id")
       | _ => None
       end |}.

Definition unreachable : crawl_outcome :=
  CrawlRaised (LibraryError "net::ERR_NAME_NOT_RESOLVED").

Definition hello_page : crawl_outcome :=
  CrawlReturned
    {| CrawlResult.markdown :=
         Some (Some {| Markdown.raw := "# Hello - Hello world.";
                       Markdown.fit_markdown := Some "Hello world." |});
       CrawlResult.title := Some "Hello" |}.

(** What the crawler returns for a page it could not load: a result object
    whose [markdown] is [None]. *)
Definition failed_page : crawl_outcome :=
  CrawlReturned {| CrawlResult.markdown := Some None; CrawlResult.title := None |}.

Definition answer_ok (content : string) : http_outcome :=
  PostReturned
    {| Response.status_code := 200;
       Response.text := "{...}";
       Response.json :=
         Some (VDict [("choices",
                       VList [VDict [("message",
                                      VDict [("role", VStr "assistant");
                                             ("content", VStr content)])]])]) |}.

Definition bad_gateway : http_outcome :=
  PostReturned
    {| Response.status_code := 502;
       Response.text := "Bad Gateway";
       Response.json := None |}.

Definition rate_limited : http_outcome :=
  PostReturned
    {| Response.status_code := 429;
       Response.text := "{...}";
       Response.json := Some (VDict [("error", VStr "Rate limit exceeded")]) |}.

Definition blank_state : SessionState :=
  {| current_page := "home"; selected_session := None;
     analysis_results := None; article_text := None |}.

Definition fresh_world : World :=
  {| db_manager := init_databases; outbox := [];
     session_state := blank_state; page := [] |}.

Definition keyed : DocumentAnalyzer := {| api_key := Some "sk-or-v1-0000" |}.
Definition keyless : DocumentAnalyzer := {| api_key := None |}.


(** Two saves under one identifier, and the rows they write. *)
Definition first_save : Save.t :=
  {| Save.session_id := "id-1"; Save.url := "https://a.example/doc"; Save.content := "A";
     Save.analysis_results :=
       make_results 100 (VStr "r1") (VStr "s1") (VStr "c1") (VStr "y1") |}.

Definition second_save : Save.t :=
  {| Save.session_id := "id-1"; Save.url := "https://b.example/doc"; Save.content := "B";
     Save.analysis_results :=
       make_results 50 (VStr "r2") (VStr "s2") (VStr "c2") (VStr "y2") |}.

Definition first_row : Row.t :=
  {| Row.session_id := "id-1"; Row.url := "https://a.example/doc";
     Row.readability := CText "r1"; Row.structure := CText "s1";
     Row.completeness := CText "c1"; Row.style := CText "y1" |}.

Definition second_row : Row.t :=
  {| Row.session_id := "id-1"; Row.url := "https://b.example/doc";
     Row.readability := CText "r2"; Row.structure := CText "s2";
     Row.completeness := CText "c2"; Row.style := CText "y2" |}.

Definition offline : Runtime := scripted unreachable bad_gateway.

(** The end-to-end scenario: the page is fetched and the endpoint answers
    every category with the same short critique. *)
Definition assessment_ok : string := "## Assessment
OK".

Definition online : Runtime := scripted hello_page (answer_ok assessment_ok).

Definition e2e_results : list (string * value) :=
  make_results 100 (VStr assessment_ok) (VStr assessment_ok)
    (VStr assessment_ok) (VStr assessment_ok).

Definition e2e_world : World :=
  (analyze_document online keyed "id-1" "https://example.com/doc" "Hello world."
     fresh_world).2.

Definition e2e_row : Row.t :=
  {| Row.session_id := "id-1"; Row.url := "https://example.com/doc";
     Row.readability := CText assessment_ok; Row.structure := CText assessment_ok;
     Row.completeness := CText assessment_ok; Row.style := CText assessment_ok |}.


(** ** Navigation and the pages (streamlit_app.py, ui.py) *)

Definition go_home (w : World) : World :=
  with_state w
    {| current_page := "home";
       selected_session := None;
       analysis_results := analysis_results (session_state w);
       article_text := article_text (session_state w) |}.

Definition go_history (w : World) : World :=
  with_state w
    {| current_page := "history";
       selected_session := selected_session (session_state w);
       analysis_results := analysis_results (session_state w);
       article_text := article_text (session_state w) |}.

Definition load_session (session_id : string) (w : World) : control * World :=
  (Rerun,
   with_state w
     {| current_page := "results";
        selected_session := Some session_id;
        analysis_results := analysis_results (session_state w);
        article_text := article_text (session_state w) |}).

(** What [render_results_page] shows: a call of [display_results] with its
    seven arguments (the last is [None] unless a score is passed), or the
    "No results to display" error. *)
Inductive results_view :=
| DisplayResults (session_id url readability structure completeness style
                  readability_score : value)
| NoResults.

(** [render_results_page(session_data, analysis_results)]; a stored row is
    truthy, a dictionary is truthy when it has an entry. *)
Definition render_results_page (session_data : option Row.t)
    (results : option (list (string * value))) : result results_view :=
  match session_data with
  | Some row =>
      Ok (DisplayResults (VStr (Row.session_id row)) (VStr (Row.url row))
            (cell_value (Row.readability row)) (cell_value (Row.structure row))
            (cell_value (Row.completeness row)) (cell_value (Row.style row))
            VNone)
  | None =>
      match results with
      | Some ((_ :: _) as d) =>
          (session_id <- getitem (VDict d) "session_id" ;;
           url <- getitem (VDict d) "url" ;;
           readability <- getitem (VDict d) "readability" ;;
           structure <- getitem (VDict d) "structure" ;;
           completeness <- getitem (VDict d) "completeness" ;;
           style <- getitem (VDict d) "style" ;;
           Ok (DisplayResults session_id url readability structure completeness style
                 (dict_get "readability_score" VNone d)))%result
      | _ => Ok NoResults
      end
  end.

(** The branch of the script for [current_page == "results"]. *)
Definition results_page (w : World) : result results_view :=
  if truthy (selected_session (session_state w))
  then
    let session_data :=
      get_session (default EmptyString (selected_session (session_state w)))
        (db_manager w) in
    render_results_page session_data None
  else
    match analysis_results (session_state w) with
    | Some ((_ :: _) as d) => render_results_page None (Some d)
    | _ => Ok NoResults
    end.

(** What a run of [render_home_page] amounts to. *)
Inductive home_view :=
| HomeIdle
| HomeWarning (body : string)
| HomeAnalyzed (c : control).

(** [render_home_page(analyze_handler)], given the text of the URL field and
    whether the Analyze button was pressed. *)
Definition render_home_page (analyze_handler : string -> World -> control * World)
    (url : string) (analyze_button : bool) (w : World) : home_view * World :=
  if analyze_button && truthy (Some url)
  then let '(c, w') := analyze_handler url w in (HomeAnalyzed c, w')
  else if analyze_button && negb (truthy (Some url))
       then (HomeWarning "Please enter a URL to analyze.", w)
       else (HomeIdle, w).

(** The history page: the rows of its table, the options of its selector
    and the label of an option. *)
Definition history_table (all_sessions : list (Row.t * Z)) : list (string * string * Z) :=
  (fun s => (slice_to 8 (Row.session_id s.1), Row.url s.1, s.2)) <$> all_sessions.

Definition history_options (all_sessions : list (Row.t * Z)) : list string :=
  (fun s => Row.session_id s.1) <$> all_sessions.

Definition history_label (all_sessions : list (Row.t * Z)) (x : string) : string :=
  slice_to 8 x +:+ " - " +:+
  default EmptyString
    ((fun s => Row.url s.1) <$>
     List.find (fun s => String.eqb (Row.session_id s.1) x) all_sessions).

(** ** More scripted answers *)

Definition answer_error_and_choices : http_outcome :=
  PostReturned
    {| Response.status_code := 200;
       Response.text := "{...}";
       Response.json :=
         Some (VDict [("choices",
                       VList [VDict [("message", VDict [("content", VStr "fine")])]]);
                      ("error", VStr "quota exceeded")]) |}.

Definition answer_structured : http_outcome :=
  PostReturned
    {| Response.status_code := 200;
       Response.text := "{...}";
       Response.json :=
         Some (VDict [("choices",
                       VList [VDict [("message",
                                      VDict [("content", VList [VStr "a"; VStr "b"])])]])]) |}.

Definition no_textstat : Runtime :=
  {| py_repr := py_repr online;
     exn_text := exn_text online;
     md5_hexdigest := md5_hexdigest online;
     flesch_reading_ease := fun _ => Raise (LibraryError "textstat failed");
     flesch_reading_ease_none := flesch_reading_ease_none online;
     arun := arun online;
     http_post := http_post online;
     sqlite_real := sqlite_real online;
     collection_add_error := collection_add_error online |}.

(** The values sqlite3 accepts as a parameter: no list, no dictionary, no
    integer outside 64 bits. *)
Definition bindable (v : value) : Prop :=
  match v with
  | VList _ | VDict _ => False
  | VInt n => int64 n = true
  | _ => True
  end.

(** The collection a URL is stored under. *)
Definition bucket (rt : Runtime) (url : string) : string :=
  "url_" +:+ md5_hexdigest rt url.

(** The records of a collection, none when it does not exist. *)
Definition records (self : DatabaseManager) (collection : string) : list ChromaRecord.t :=
  default [] (chroma self !! collection).

(** The world in which [analyze_url] starts the analysis: the article text
    is kept in the session state and its preview is on the page. *)
Definition previewed (text : string) (w : World) : World :=
  render (StMarkdown (format_markdown_for_display text 1500))
    (with_state w
       {| current_page := current_page (session_state w);
          selected_session := selected_session (session_state w);
          analysis_results := analysis_results (session_state w);
          article_text := Some text |}).

(** The dictionary [analyze_url] keeps for the results page. *)
Definition shown_results (session_id url text : string) (score : float)
    (readability structure completeness style : value) : list (string * value) :=
  [("session_id", VStr session_id);
   ("url", VStr url);
   ("readability", readability);
   ("readability_score", VFloat score);
   ("structure", structure);
   ("completeness", completeness);
   ("style", style);
   ("article_text", VStr text)].


(** * Properties *)

(** ** Strings *)

Lemma append_cons (c : Ascii.ascii) (a b : string) :
  String c a +:+ b = String c (a +:+ b).
Proof. reflexivity. Qed.

Lemma append_nil (b : string) : EmptyString +:+ b = b.
Proof. reflexivity. Qed.

Lemma append_assoc (a b c : string) : (a +:+ b) +:+ c = a +:+ (b +:+ c).
Proof.
  induction a as [|x a IH]; [reflexivity|].
  rewrite !append_cons. f_equal. exact IH.
Qed.

Lemma str_take_prefix (n : nat) (s : string) :
  exists rest, s = str_take n s +:+ rest.
Proof.
  revert s. induction n as [|n IH]; intros s.
  - exists s. destruct s; reflexivity.
  - destruct s as [|c s]; [exists EmptyString; reflexivity|].
    destruct (IH s) as [rest E]. exists rest.
    cbn [str_take]. rewrite append_cons, <- E. reflexivity.
Qed.

Lemma str_take_length (n : nat) (s : string) :
  String.length (str_take n s) = Nat.min n (String.length s).
Proof.
  revert s. induction n as [|n IH]; intros [|c s]; cbn; auto.
Qed.

Lemma str_take_short (n : nat) (s : string) :
  (String.length s <= n)%nat -> str_take n s = s.
Proof.
  revert s. induction n as [|n IH]; intros [|c s] H; cbn in *; try reflexivity.
  - lia.
  - rewrite IH; [reflexivity | lia].
Qed.

(** The truncated text is decided by the first [n] characters alone. *)
Lemma str_take_app (n : nat) (s rest : string) :
  (n <= String.length s)%nat -> str_take n (s +:+ rest) = str_take n s.
Proof.
  revert s. induction n as [|n IH]; intros [|c s] H; cbn in H.
  - destruct rest; reflexivity.
  - reflexivity.
  - lia.
  - rewrite append_cons. cbn [str_take]. rewrite IH; [reflexivity | lia].
Qed.

Lemma prefixb_app (p rest : string) : prefixb p (p +:+ rest) = true.
Proof.
  induction p as [|c p IH]; [reflexivity|].
  rewrite append_cons. cbn [prefixb]. now rewrite Ascii.eqb_refl.
Qed.

Lemma substringb_unfold (needle hay : string) :
  substringb needle hay =
  prefixb needle hay ||
  match hay with
  | EmptyString => false
  | String _ hay' => substringb needle hay'
  end.
Proof. destruct hay; reflexivity. Qed.

Lemma substringb_complete (needle hay : string) :
  contains needle hay -> substringb needle hay = true.
Proof.
  intros (before & after & ->).
  induction before as [|c before IH].
  - rewrite append_nil, substringb_unfold, prefixb_app. reflexivity.
  - rewrite append_cons, substringb_unfold, IH. apply orb_true_r.
Qed.

Lemma contains_middle (a needle b : string) : contains needle (a +:+ needle +:+ b).
Proof. exists a, b. reflexivity. Qed.


(** ** The sessions table *)

Section TableFacts.
Variable rt : Runtime.

Lemma save_analysis_sessions session_id url content results db :
  sessions (save_analysis rt session_id url content results db).2 =
  match insert_values rt session_id url results with
  | Ok row => sessions db ++ [(next_rowid (sessions db), row)]
  | Raise _ => sessions db
  end.
Proof.
  unfold save_analysis.
  destruct (insert_values rt session_id url results) as [row|e]; [|reflexivity].
  unfold get_url_collection. cbn [sessions collections chroma].
  case_bool_decide; cbn [sessions collections chroma];
    destruct (collection_add_error rt _ _ _); try reflexivity;
    unfold collection_add; destruct (has_id _ _); reflexivity.
Qed.

(** The records of the URL's collection are what [collection.add] sees. *)
Lemma get_url_collection_records url db name :
  default [] (chroma (get_url_collection rt url db).2 !! name) =
  default [] (chroma db !! name).
Proof.
  unfold get_url_collection.
  case_bool_decide; cbn [snd chroma]; [reflexivity|].
  destruct (chroma db !! ("url_" +:+ md5_hexdigest rt url)) as [old|] eqn:Eold;
    [reflexivity|].
  destruct (decide (name = "url_" +:+ md5_hexdigest rt url)) as [->|Hne].
  - rewrite lookup_insert_eq, Eold. reflexivity.
  - rewrite lookup_insert_ne by congruence. reflexivity.
Qed.

Lemma get_url_collection_name url db :
  (get_url_collection rt url db).1 = "url_" +:+ md5_hexdigest rt url.
Proof. unfold get_url_collection. case_bool_decide; reflexivity. Qed.

(** A save raises from the INSERT, or else from [collection.add]. *)
Lemma save_analysis_outcome session_id url content results db :
  (save_analysis rt session_id url content results db).1 =
  match insert_values rt session_id url results with
  | Ok _ =>
      match collection_add_error rt ("url_" +:+ md5_hexdigest rt url)
              (default [] (chroma db !! ("url_" +:+ md5_hexdigest rt url)))
              {| ChromaRecord.document := content;
                 ChromaRecord.metadata := content_metadata rt session_id url results;
                 ChromaRecord.id := session_id |} with
      | None => Ok tt
      | Some e => Raise e
      end
  | Raise e => Raise e
  end.
Proof.
  unfold save_analysis.
  destruct (insert_values rt session_id url results) as [row|e]; [|reflexivity].
  match goal with
  | |- context [get_url_collection rt url ?d] =>
      pose proof (get_url_collection_records url d ("url_" +:+ md5_hexdigest rt url)) as Hrec;
      pose proof (get_url_collection_name url d) as Hname;
      destruct (get_url_collection rt url d) as [collection self2]
  end.
  cbn [fst snd] in Hrec, Hname. subst collection. rewrite Hrec. cbn [chroma].
  destruct (collection_add_error rt _ _ _); reflexivity.
Qed.

(** The content store after a save whose INSERT went through: only the
    collection of the URL can change, and only by the new record, kept when
    [collection.add] accepts it and the id is not there yet. *)
Lemma save_analysis_records session_id url content results db row name :
  insert_values rt session_id url results = Ok row ->
  records (save_analysis rt session_id url content results db).2 name =
  if decide (name = bucket rt url)
  then
    match collection_add_error rt (bucket rt url) (records db (bucket rt url))
            {| ChromaRecord.document := content;
               ChromaRecord.metadata := content_metadata rt session_id url results;
               ChromaRecord.id := session_id |} with
    | Some _ => records db name
    | None =>
        if has_id session_id (records db name)
        then records db name
        else records db name ++
             [{| ChromaRecord.document := content;
                 ChromaRecord.metadata := content_metadata rt session_id url results;
                 ChromaRecord.id := session_id |}]
    end
  else records db name.
Proof.
  intros Hrow. unfold save_analysis, records, bucket. rewrite Hrow.
  match goal with
  | |- context [get_url_collection rt url ?d] =>
      pose proof (get_url_collection_records url d) as Hrec;
      pose proof (get_url_collection_name url d) as Hname;
      destruct (get_url_collection rt url d) as [collection self2]
  end.
  cbn [fst snd chroma] in Hrec, Hname. subst collection. rewrite Hrec.
  destruct (collection_add_error rt _ _ _) as [e|]; cbn [snd].
  - rewrite Hrec. case_decide; reflexivity.
  - unfold collection_add. cbn [ChromaRecord.id]. rewrite Hrec.
    case_decide as Hn.
    + subst name.
      destruct (has_id session_id _) eqn:Hid; [apply Hrec|].
      cbn [chroma]. rewrite lookup_insert_eq. reflexivity.
    + destruct (has_id session_id (default [] (chroma db !! _))); [apply Hrec|].
      cbn [chroma]. rewrite lookup_insert_ne by congruence. apply Hrec.
Qed.

Lemma number_from_app k rows r :
  number_from k (rows ++ [r]) =
  number_from k rows ++ [(k + Z.of_nat (length rows), r)].
Proof.
  revert k. induction rows as [|x rows IH]; intros k; cbn [number_from app length].
  - replace (k + Z.of_nat 0) with k by lia. reflexivity.
  - rewrite IH.
    replace (k + 1 + Z.of_nat (length rows)) with (k + Z.of_nat (S (length rows))) by lia.
    reflexivity.
Qed.


Lemma max_rowid_number_from k rows :
  0 <= k ->
  foldr (fun r m => Z.max r.1 m) 0 (number_from (k + 1) rows) =
  match rows with [] => 0 | _ => k + Z.of_nat (length rows) end.
Proof.
  revert k. induction rows as [|x rows IH]; intros k Hk; [reflexivity|].
  cbn [number_from foldr length fst]. rewrite IH by lia.
  destruct rows; cbn [length]; lia.
Qed.

Lemma next_rowid_number_from rows :
  next_rowid (number_from 1 rows) = 1 + Z.of_nat (length rows).
Proof.
  unfold next_rowid. rewrite (max_rowid_number_from 0) by lia.
  destruct rows; cbn [length]; lia.
Qed.

Lemma inserted_snoc history c :
  inserted rt (history ++ [c]) =
  inserted rt history ++
  match insert_values rt (Save.session_id c) (Save.url c) (Save.analysis_results c) with
  | Ok row => [row]
  | Raise _ => []
  end.
Proof.
  unfold inserted. rewrite omap_app. f_equal. cbn.
  destruct (insert_values rt _ _ _); reflexivity.
Qed.

(** The table after a history holds the inserted rows, numbered from 1. *)
Lemma sessions_db_after history :
  sessions (db_after rt history) = number_from 1 (inserted rt history).
Proof.
  induction history as [|c history IH] using rev_ind; [reflexivity|].
  rewrite inserted_snoc. unfold db_after in *. rewrite foldl_app. cbn [foldl].
  rewrite save_analysis_sessions, IH.
  destruct (insert_values rt _ _ _) as [row|e].
  - rewrite number_from_app, next_rowid_number_from. reflexivity.
  - now rewrite app_nil_r.
Qed.



Lemma find_session_app session_id (t1 t2 : list (Z * Row.t)) :
  List.find (fun r => String.eqb (Row.session_id r.2) session_id) (t1 ++ t2) =
  match List.find (fun r => String.eqb (Row.session_id r.2) session_id) t1 with
  | Some r => Some r
  | None => List.find (fun r => String.eqb (Row.session_id r.2) session_id) t2
  end.
Proof.
  induction t1 as [|x t1 IH]; [reflexivity|].
  cbn [app List.find]. destruct (String.eqb _ _); [reflexivity | exact IH].
Qed.

Lemma insert_values_ids session_id url results row :
  insert_values rt session_id url results = Ok row ->
  Row.session_id row = session_id /\ Row.url row = url.
Proof.
  unfold insert_values, rbind. intros H.
  repeat match type of H with
         | match ?x with _ => _ end = _ => destruct x; try discriminate
         end.
  injection H as <-. split; reflexivity.
Qed.

Lemma get_session_inserted session_id rows k :
  session_id ∉ (Row.session_id <$> rows) ->
  List.find (fun r => String.eqb (Row.session_id r.2) session_id) (number_from k rows) = None.
Proof.
  revert k. induction rows as [|r rows IH]; intros k Hn; [reflexivity|].
  cbn [number_from List.find snd]. rewrite fmap_cons, not_elem_of_cons in Hn.
  destruct Hn as [Hne Hn].
  destruct (String.eqb_spec (Row.session_id r) session_id); [congruence|].
  apply IH, Hn.
Qed.

Lemma inserted_ids history x :
  x ∈ (Row.session_id <$> inserted rt history) -> x ∈ (Save.session_id <$> history).
Proof.
  induction history as [|c history IH]; [trivial|].
  unfold inserted in *. cbn [omap list_omap].
  rewrite (fmap_cons Save.session_id), elem_of_cons.
  destruct (insert_values rt (Save.session_id c) (Save.url c) (Save.analysis_results c))
    as [row|e] eqn:E.
  - apply insert_values_ids in E as [<- _].
    rewrite fmap_cons, elem_of_cons. intros [->|H]; [now left | right; now apply IH].
  - intros H. right. now apply IH.
Qed.
End TableFacts.


(** ** Round trip through the sessions table *)

Lemma insert_values_text rt session_id url results r s c y :
  readability_text results = Ok (VStr r) ->
  getitem (VDict results) "structure" = Ok (VStr s) ->
  getitem (VDict results) "completeness" = Ok (VStr c) ->
  getitem (VDict results) "style" = Ok (VStr y) ->
  insert_values rt session_id url results =
  Ok {| Row.session_id := session_id; Row.url := url;
        Row.readability := CText r; Row.structure := CText s;
        Row.completeness := CText c; Row.style := CText y |}.
Proof.
  intros Hr Hs Hc Hy. unfold insert_values. rewrite Hr, Hs, Hc, Hy. reflexivity.
Qed.

Lemma get_session_after_save rt session_id url content results db row :
  get_session session_id db = None ->
  insert_values rt session_id url results = Ok row ->
  get_session session_id (save_analysis rt session_id url content results db).2 = Some row.
Proof.
  unfold get_session. intros Hnone Hrow.
  rewrite save_analysis_sessions, Hrow, find_session_app.
  destruct (List.find _ (sessions db)) as [x|]; [discriminate|].
  cbn [List.find snd]. apply insert_values_ids in Hrow as [-> _].
  now rewrite String.eqb_refl.
Qed.

(** With a row of the same identifier already stored, the lookup still
    answers with the older row. *)
Lemma get_session_keeps_oldest rt session_id url content results db old :
  get_session session_id db = Some old ->
  get_session session_id (save_analysis rt session_id url content results db).2 = Some old.
Proof.
  unfold get_session. intros Hold.
  rewrite save_analysis_sessions.
  destruct (insert_values rt session_id url results) as [row|e]; [|exact Hold].
  rewrite find_session_app.
  destruct (List.find _ (sessions db)) as [x|]; [exact Hold | discriminate].
Qed.

Lemma find_numbered session_id k rows :
  snd <$> List.find (fun r : Z * Row.t => String.eqb (Row.session_id r.2) session_id)
            (number_from k rows) =
  List.find (fun row => String.eqb (Row.session_id row) session_id) rows.
Proof.
  revert k. induction rows as [|row rows IH]; intros k; [reflexivity|].
  cbn [number_from List.find snd].
  destruct (String.eqb (Row.session_id row) session_id); [reflexivity | apply IH].
Qed.

(** C1 (amended). When no row carries [session_id] yet and the four critique
    values are text, [get_session(session_id)] after [save_analysis] returns
    the row whose six fields are exactly the identifier, the URL and the
    four texts written; the save itself returns unless [collection.add]
    raises, and the row is there either way. When a row with that
    identifier is already stored, [get_session] keeps returning the row it
    returned before; after any history of saves it returns the oldest
    inserted row with the identifier. A [session_id] that no save of the
    history used is answered with [None]; [get_session] is a total function,
    so it never raises. *)
Theorem save_then_get_session (rt : Runtime) :
  (forall db session_id url content results r s c y,
      get_session session_id db = None ->
      readability_text results = Ok (VStr r) ->
      getitem (VDict results) "structure" = Ok (VStr s) ->
      getitem (VDict results) "completeness" = Ok (VStr c) ->
      getitem (VDict results) "style" = Ok (VStr y) ->
      get_session session_id (save_analysis rt session_id url content results db).2 =
      Some {| Row.session_id := session_id; Row.url := url;
              Row.readability := CText r; Row.structure := CText s;
              Row.completeness := CText c; Row.style := CText y |} /\
      (save_analysis rt session_id url content results db).1 =
      match collection_add_error rt (bucket rt url) (records db (bucket rt url))
              {| ChromaRecord.document := content;
                 ChromaRecord.metadata := content_metadata rt session_id url results;
                 ChromaRecord.id := session_id |} with
      | None => Ok tt
      | Some e => Raise e
      end) /\
  (forall db session_id url content results old,
      get_session session_id db = Some old ->
      get_session session_id (save_analysis rt session_id url content results db).2 =
      Some old) /\
  (forall history session_id,
      get_session session_id (db_after rt history) =
      List.find (fun row => String.eqb (Row.session_id row) session_id)
        (inserted rt history)) /\
  (forall history session_id,
      session_id ∉ (Save.session_id <$> history) ->
      get_session session_id (db_after rt history) = None).
Proof.
  split; [|split; [|split]].
  - intros db session_id url content results r s c y Hfresh Hr Hs Hc Hy.
    pose proof (insert_values_text rt session_id url results r s c y Hr Hs Hc Hy) as Hrow.
    split.
    + apply get_session_after_save; assumption.
    + rewrite save_analysis_outcome, Hrow. reflexivity.
  - intros db session_id url content results old.
    apply get_session_keeps_oldest.
  - intros history session_id. unfold get_session.
    rewrite sessions_db_after. apply find_numbered.
  - intros history session_id Hnew. unfold get_session.
    rewrite sessions_db_after, get_session_inserted; [reflexivity|].
    intros Hin. apply Hnew. eapply inserted_ids, Hin.
Qed.

Lemma save_then_get_session_witness :
  get_session "id-1"
    (save_analysis offline "id-1" "https://a.example/doc" "A"
       (Save.analysis_results first_save) init_databases).2 = Some first_row /\
  get_session "id-1"
    (save_analysis offline "id-1" "https://b.example/doc" "B"
       (Save.analysis_results second_save) (db_after offline [first_save])).2 =
  Some first_row /\
  get_session "id-2" (db_after offline [first_save]) = None.
Proof.
  destruct (save_then_get_session offline) as (Hfresh & Holdest & _ & Hnever).
  split; [|split].
  - apply (Hfresh init_databases "id-1" "https://a.example/doc" "A"
             (Save.analysis_results first_save) "r1" "s1" "c1" "y1"); reflexivity.
  - apply (Holdest (db_after offline [first_save]) "id-1" "https://b.example/doc" "B"
             (Save.analysis_results second_save) first_row). reflexivity.
  - apply (Hnever [first_save] "id-2").
    apply (bool_decide_unpack _). vm_compute. exact I.
Defined.

(** C1 as stated fails in two ways. After two saves under ["id-1"],
    [get_session] returns the first row, not the row just written. And a
    critique that is the integer 42 is stored in its [TEXT] column as the
    text "42", which is what comes back. *)
Lemma get_session_round_trip_counterexample :
  ((save_analysis offline "id-1" "https://b.example/doc" "B"
      (Save.analysis_results second_save) (db_after offline [first_save])).1 = Ok tt /\
   insert_values offline "id-1" "https://b.example/doc"
     (Save.analysis_results second_save) = Ok second_row /\
   get_session "id-1"
     (save_analysis offline "id-1" "https://b.example/doc" "B"
        (Save.analysis_results second_save) (db_after offline [first_save])).2
   = Some first_row /\
   first_row <> second_row) /\
  ((save_analysis offline "id-3" "https://c.example/doc" "C"
      (make_results 100 (VStr "r3") (VInt 42) (VStr "c3") (VStr "y3"))
      init_databases).1 = Ok tt /\
   (cell_value ∘ Row.structure) <$>
     get_session "id-3"
       (save_analysis offline "id-3" "https://c.example/doc" "C"
          (make_results 100 (VStr "r3") (VInt 42) (VStr "c3") (VStr "y3"))
          init_databases).2 = Some (VStr "42") /\
   VStr "42" <> VInt 42).
Proof.
  split.
  - split; [|split; [|split]].
    + reflexivity.
    + reflexivity.
    + apply get_session_keeps_oldest. reflexivity.
    + discriminate.
  - split; [reflexivity|]. split; [reflexivity | discriminate].
Qed.


(** ** Recent sessions *)






(** A negative limit is no limit: every stored session comes back. *)
Example get_recent_sessions_negative_limit :
  get_recent_sessions (-1) (db_after offline [first_save; second_save]) =
  Ok [("id-1", "https://b.example/doc", 2); ("id-1", "https://a.example/doc", 1)].
Proof. reflexivity. Qed.


(** ** The fetcher *)

(** C5 (defect in the code). A result object whose [markdown] attribute is
    [None], which is what the crawler hands back for a page it could not
    load, passes the [hasattr] test: [fetch_article_text] reports
    [success = true] with [None] as content and no error, where the claim
    asks for [success = false] and an error text on any failure. *)
Theorem fetch_article_text_none_markdown (rt : Runtime) (url : string)
    (result : CrawlResult.t) :
  arun rt url = CrawlReturned result ->
  CrawlResult.markdown result = Some None ->
  Extraction.success (fetch_article_text rt url) = true /\
  Extraction.content (fetch_article_text rt url) = None /\
  Extraction.error (fetch_article_text rt url) = None.
Proof.
  intros Hrun Hnone. unfold fetch_article_text, fetch_article_text_async.
  rewrite Hrun, Hnone. repeat split.
Qed.

Lemma fetch_article_text_none_markdown_witness :
  Extraction.success
    (fetch_article_text (scripted failed_page bad_gateway) "https://nowhere.invalid/doc")
  = true /\
  Extraction.content
    (fetch_article_text (scripted failed_page bad_gateway) "https://nowhere.invalid/doc")
  = None /\
  Extraction.error
    (fetch_article_text (scripted failed_page bad_gateway) "https://nowhere.invalid/doc")
  = None.
Proof.
  apply (fetch_article_text_none_markdown (scripted failed_page bad_gateway)
           "https://nowhere.invalid/doc"
           {| CrawlResult.markdown := Some None; CrawlResult.title := None |});
    reflexivity.
Defined.

(** X27. [fetch_article_text] is a total function into the record of
    content, title, url and success, so it never raises; the url is echoed
    back; a fetch that reports [success = false] has the empty text as
    content and carries an error text; an exception of the crawl, and a
    result without a markdown attribute, are both reported as
    [success = false], with the exception's text or the fixed message. *)
Theorem fetch_article_text_contract (rt : Runtime) (url : string) :
  Extraction.url (fetch_article_text rt url) = url /\
  (Extraction.success (fetch_article_text rt url) = false ->
   Extraction.content (fetch_article_text rt url) = Some EmptyString /\
   exists msg, Extraction.error (fetch_article_text rt url) = Some msg) /\
  (forall e, arun rt url = CrawlRaised e ->
   Extraction.success (fetch_article_text rt url) = false /\
   Extraction.error (fetch_article_text rt url) = Some (exn_text rt e)) /\
  (forall result, arun rt url = CrawlReturned result ->
   CrawlResult.markdown result = None ->
   Extraction.success (fetch_article_text rt url) = false /\
   Extraction.error (fetch_article_text rt url) = Some "Failed to extract content").
Proof.
  unfold fetch_article_text, fetch_article_text_async.
  destruct (arun rt url) as [e|result] eqn:Erun.
  - split; [reflexivity|]. split; [intros _; split; [reflexivity | eauto]|].
    split; [|intros ? [=]].
    intros e' [= <-]. split; reflexivity.
  - destruct (CrawlResult.markdown result) as [md|] eqn:Emd.
    + split; [reflexivity|]. split; [intros [=]|].
      split; [intros ? [=]|].
      intros result' [= <-] Hnone. congruence.
    + split; [reflexivity|]. split; [intros _; split; [reflexivity | eauto]|].
      split; [intros ? [=]|].
      intros result' _ _. split; reflexivity.
Qed.

Lemma fetch_article_text_contract_witness :
  Extraction.content (fetch_article_text offline "https://nowhere.invalid/doc") =
  Some EmptyString /\
  Extraction.error (fetch_article_text offline "https://nowhere.invalid/doc") =
  Some "net::ERR_NAME_NOT_RESOLVED".
Proof.
  destruct (fetch_article_text_contract offline "https://nowhere.invalid/doc")
    as (_ & Hfailed & Hraised & _).
  split.
  - apply Hfailed. reflexivity.
  - apply (Hraised (LibraryError "net::ERR_NAME_NOT_RESOLVED")). reflexivity.
Defined.

(** A page the crawler renders comes back as a success, its fitted markdown
    preferred over the raw conversion. *)
Example fetch_hello_page :
  fetch_article_text (scripted hello_page bad_gateway) "https://example.com/doc" =
  {| Extraction.content := Some "Hello world."; Extraction.title := "Hello";
     Extraction.url := "https://example.com/doc"; Extraction.success := true;
     Extraction.error := None |}.
Proof. reflexivity. Qed.

(** ** A failed fetch stops the pipeline *)

(** C2. When the fetch reports [success = false], [analyze_url] only renders
    the error: it returns without restarting the script, the manager (the
    sessions table and the content store) is the one it started with, no
    request has been sent to the endpoint, and the session state is
    untouched. *)
Theorem analyze_url_fetch_failure (rt : Runtime) (analyzer : DocumentAnalyzer)
    (uuid url : string) (w : World) :
  Extraction.success (fetch_article_text rt url) = false ->
  analyze_url rt analyzer uuid url w =
  (Returned,
   render (StError ("Failed to extract content: " +:+
                    default "Unknown error"
                      (Extraction.error (fetch_article_text rt url)))) w) /\
  db_manager (analyze_url rt analyzer uuid url w).2 = db_manager w /\
  sessions (db_manager (analyze_url rt analyzer uuid url w).2) = sessions (db_manager w) /\
  chroma (db_manager (analyze_url rt analyzer uuid url w).2) = chroma (db_manager w) /\
  outbox (analyze_url rt analyzer uuid url w).2 = outbox w /\
  session_state (analyze_url rt analyzer uuid url w).2 = session_state w.
Proof.
  intros Hfail. unfold analyze_url. rewrite Hfail. repeat split.
Qed.

Lemma analyze_url_fetch_failure_witness :
  analyze_url offline keyed "id-1" "https://nowhere.invalid/doc" fresh_world =
  (Returned,
   render (StError "Failed to extract content: net::ERR_NAME_NOT_RESOLVED") fresh_world) /\
  db_manager (analyze_url offline keyed "id-1" "https://nowhere.invalid/doc" fresh_world).2 =
  init_databases.
Proof.
  destruct (analyze_url_fetch_failure offline keyed "id-1" "https://nowhere.invalid/doc"
              fresh_world eq_refl) as (Hrun & Hdb & _).
  split; [exact Hrun | exact Hdb].
Defined.


(** ** The critic *)

Section CriticFacts.
Variable rt : Runtime.
Variable self : DocumentAnalyzer.

Lemma _ask_llm_keyless prompt w :
  truthy (api_key self) = false ->
  _ask_llm rt self prompt w = (VStr api_key_sentinel, w).
Proof. intros H. unfold _ask_llm. rewrite H. reflexivity. Qed.

Lemma _ask_llm_outbox prompt w :
  truthy (api_key self) = true ->
  outbox (_ask_llm rt self prompt w).2 = outbox w ++ [build_request self prompt].
Proof.
  intros H. unfold _ask_llm. rewrite H. cbn [negb].
  destruct (http_post rt _ _) as [e|response]; [reflexivity|].
  destruct (read_response rt response); reflexivity.
Qed.

(** The critic writes to neither store, whatever the endpoint does. *)
Lemma _ask_llm_db_manager prompt w :
  db_manager (_ask_llm rt self prompt w).2 = db_manager w.
Proof.
  unfold _ask_llm. destruct (negb _); [reflexivity|].
  destruct (http_post rt _ _) as [e|response]; [reflexivity|].
  destruct (read_response rt response); reflexivity.
Qed.

Lemma _ask_llm_answered prompt w response :
  truthy (api_key self) = true ->
  http_post rt (outbox w) (build_request self prompt) = PostReturned response ->
  (_ask_llm rt self prompt w).1 =
  match read_response rt response with
  | Ok v => v
  | Raise e => VStr ("Error connecting to API: " +:+ exn_text rt e)
  end.
Proof.
  intros Hkey Hpost. unfold _ask_llm. rewrite Hkey, Hpost. cbn [negb].
  destruct (read_response rt response); reflexivity.
Qed.

Lemma slice_to_2000 text : slice_to 2000 text = str_take 2000 text.
Proof. reflexivity. Qed.
End CriticFacts.

Lemma truthy_false (o : option string) :
  o = None \/ o = Some EmptyString -> truthy o = false.
Proof. intros [->| ->]; reflexivity. Qed.

(** C3. With the credential absent or empty, each of the four critic
    operations returns the fixed sentinel text, for every text and score; it
    is a plain return, so nothing is raised, and the world is left as it
    was. *)
Theorem critics_without_api_key (rt : Runtime) (self : DocumentAnalyzer)
    (text : string) (score : float) (w : World) :
  api_key self = None \/ api_key self = Some EmptyString ->
  api_key_sentinel =
  "Error: API key is not set. Please add your API key to the .env file as OPENROUTER_API_KEY." /\
  _analyze_readability rt self text score w = (VStr api_key_sentinel, w) /\
  _analyze_structure rt self text w = (VStr api_key_sentinel, w) /\
  _analyze_completeness rt self text w = (VStr api_key_sentinel, w) /\
  _analyze_style rt self text w = (VStr api_key_sentinel, w).
Proof.
  intros Hkey. apply truthy_false in Hkey.
  unfold _analyze_readability, _analyze_structure, _analyze_completeness, _analyze_style.
  rewrite !_ask_llm_keyless by exact Hkey. repeat split.
Qed.

Lemma critics_without_api_key_witness :
  _analyze_readability offline keyless "Hello world." 100 fresh_world =
  (VStr api_key_sentinel, fresh_world) /\
  _analyze_style offline {| api_key := Some EmptyString |} "Hello world." fresh_world =
  (VStr api_key_sentinel, fresh_world).
Proof.
  split.
  - apply (critics_without_api_key offline keyless "Hello world." 100 fresh_world).
    left. reflexivity.
  - apply (critics_without_api_key offline {| api_key := Some EmptyString |}
             "Hello world." 100 fresh_world).
    right. reflexivity.
Defined.

(** C4 (amended). When the endpoint answers with a status other than 200 and
    a body that decodes to a JSON object, the text returned is
    ["API Error: HTTP <status> - <error>"], which contains the status code
    in decimal. *)
Theorem ask_llm_reports_status (rt : Runtime) (self : DocumentAnalyzer)
    (prompt : string) (w : World) (response : Response.t)
    (body : list (string * value)) :
  truthy (api_key self) = true ->
  http_post rt (outbox w) (build_request self prompt) = PostReturned response ->
  Response.status_code response <> 200 ->
  Response.json response = Some (VDict body) ->
  (_ask_llm rt self prompt w).1 =
  VStr ("API Error: HTTP " +:+ pretty (Response.status_code response) +:+ " - " +:+
        py_str rt (dict_get "error" (VDict body) body)) /\
  contains (pretty (Response.status_code response))
    ("API Error: HTTP " +:+ pretty (Response.status_code response) +:+ " - " +:+
     py_str rt (dict_get "error" (VDict body) body)).
Proof.
  intros Hkey Hpost Hstatus Hjson. split.
  - rewrite (_ask_llm_answered rt self prompt w response Hkey Hpost).
    unfold read_response. rewrite Hjson.
    destruct (Z.eqb_spec (Response.status_code response) 200); [contradiction|].
    reflexivity.
  - apply contains_middle.
Qed.

Lemma ask_llm_reports_status_witness :
  (_ask_llm (scripted hello_page rate_limited) keyed "prompt" fresh_world).1 =
  VStr "API Error: HTTP 429 - Rate limit exceeded" /\
  contains "429" "API Error: HTTP 429 - Rate limit exceeded".
Proof.
  apply (ask_llm_reports_status (scripted hello_page rate_limited) keyed "prompt"
           fresh_world
           {| Response.status_code := 429; Response.text := "{...}";
              Response.json := Some (VDict [("error", VStr "Rate limit exceeded")]) |}
           [("error", VStr "Rate limit exceeded")]).
  - reflexivity.
  - reflexivity.
  - vm_compute. discriminate.
  - reflexivity.
Defined.

(** C4 as stated fails when the body is not JSON: the decoding is checked
    before the status, and the text returned for a 502 with an HTML or plain
    body does not mention 502. *)
Lemma ask_llm_non_json_counterexample :
  (_ask_llm (scripted hello_page bad_gateway) keyed "prompt" fresh_world).1 =
  VStr "API Error: Non-JSON response - Bad Gateway" /\
  pretty 502 = "502" /\
  ~ contains "502" "API Error: Non-JSON response - Bad Gateway".
Proof.
  split; [reflexivity | split; [reflexivity|]].
  intros H. apply substringb_complete in H. vm_compute in H. discriminate.
Qed.

(** A non-200 body that is JSON but not an object has no [get]: the
    [AttributeError] lands in the outer handler. *)
Example ask_llm_non_200_json_array :
  (_ask_llm
     (scripted hello_page
        (PostReturned {| Response.status_code := 500; Response.text := "[]";
                         Response.json := Some (VList []) |}))
     keyed "prompt" fresh_world).1 =
  VStr "Error connecting to API: <exception>".
Proof. reflexivity. Qed.


(** ** The excerpt in the prompts *)

(** C7. Each of the four critic operations hands [_ask_llm] the category's
    template around one and the same excerpt: the leading part of the text,
    2000 characters long, or the whole text when it is shorter. With a
    credential set, that prompt is the one request the operation sends. *)
Theorem critics_embed_leading_excerpt (rt : Runtime) (self : DocumentAnalyzer)
    (text : string) (score : float) (w : World) :
  exists excerpt rest,
    text = excerpt +:+ rest /\
    String.length excerpt = Nat.min 2000 (String.length text) /\
    _analyze_readability rt self text score w =
    _ask_llm rt self
      (readability_prompt_head +:+ py_str rt (VFloat score) +:+
       readability_prompt_body +:+ excerpt +:+ readability_prompt_tail) w /\
    _analyze_structure rt self text w =
    _ask_llm rt self (structure_prompt_head +:+ excerpt +:+ structure_prompt_tail) w /\
    _analyze_completeness rt self text w =
    _ask_llm rt self
      (completeness_prompt_head +:+ excerpt +:+ completeness_prompt_tail) w /\
    _analyze_style rt self text w =
    _ask_llm rt self (style_prompt_head +:+ excerpt +:+ style_prompt_tail) w /\
    (truthy (api_key self) = true ->
     Request.content <$> outbox (_analyze_readability rt self text score w).2 =
     (Request.content <$> outbox w) ++
     [readability_prompt_head +:+ py_str rt (VFloat score) +:+
      readability_prompt_body +:+ excerpt +:+ readability_prompt_tail] /\
     Request.content <$> outbox (_analyze_structure rt self text w).2 =
     (Request.content <$> outbox w) ++
     [structure_prompt_head +:+ excerpt +:+ structure_prompt_tail] /\
     Request.content <$> outbox (_analyze_completeness rt self text w).2 =
     (Request.content <$> outbox w) ++
     [completeness_prompt_head +:+ excerpt +:+ completeness_prompt_tail] /\
     Request.content <$> outbox (_analyze_style rt self text w).2 =
     (Request.content <$> outbox w) ++
     [style_prompt_head +:+ excerpt +:+ style_prompt_tail]).
Proof.
  destruct (str_take_prefix 2000 text) as [rest Hrest].
  exists (str_take 2000 text), rest.
  split; [exact Hrest|]. split; [apply str_take_length|].
  unfold _analyze_readability, _analyze_structure, _analyze_completeness, _analyze_style.
  unfold readability_prompt, structure_prompt, completeness_prompt, style_prompt.
  rewrite slice_to_2000.
  do 4 (split; [reflexivity|]).
  intros Hkey. rewrite !_ask_llm_outbox by exact Hkey.
  rewrite !fmap_app. repeat split.
Qed.

Lemma critics_embed_leading_excerpt_witness :
  exists excerpt,
    String.length excerpt = Nat.min 2000 (String.length "Hello world.") /\
    Request.content <$>
      outbox (_analyze_structure offline keyed "Hello world." fresh_world).2 =
    [structure_prompt_head +:+ excerpt +:+ structure_prompt_tail] /\
    Request.content <$>
      outbox (_analyze_style offline keyed "Hello world." fresh_world).2 =
    [style_prompt_head +:+ excerpt +:+ style_prompt_tail].
Proof.
  destruct (critics_embed_leading_excerpt offline keyed "Hello world." 100 fresh_world)
    as (excerpt & rest & _ & Hlen & _ & _ & _ & _ & Hsent).
  destruct (Hsent eq_refl) as (_ & Hstructure & _ & Hstyle).
  exists excerpt. split; [exact Hlen|]. split; [exact Hstructure | exact Hstyle].
Defined.

(** What lies beyond the first 2000 characters never reaches a prompt. *)
Lemma structure_prompt_ignores_tail (text extra : string) :
  (2000 <= String.length text)%nat ->
  structure_prompt (text +:+ extra) = structure_prompt text.
Proof.
  intros Hlen. unfold structure_prompt.
  rewrite !slice_to_2000, str_take_app by exact Hlen. reflexivity.
Qed.

(** A text of 2003 characters is cut to its first 2000; a short one is kept
    whole. *)
Example slice_to_cuts :
  String.length (slice_to 2000 (String.concat EmptyString (replicate 2003 "x"))) = 2000%nat /\
  slice_to 2000 "Hello world." = "Hello world." /\
  slice_to (-1) "Hello" = "Hell".
Proof. vm_compute. repeat split. Qed.


(** ** What an analysis persists *)

Section AnalysisFacts.
Variable rt : Runtime.
Variable self : DocumentAnalyzer.

(** A completed analysis, taken apart: the score, the four critiques, and
    the save on the manager the critiques left untouched. *)
Lemma analyze_document_ok session_id url text w results w' :
  analyze_document rt self session_id url text w = (Ok results, w') ->
  exists score readability structure completeness style,
    flesch_reading_ease rt text = Ok score /\
    results = make_results score readability structure completeness style /\
    save_analysis rt session_id url text results (db_manager w) =
    (Ok tt, db_manager w').
Proof.
  unfold analyze_document, bind, lift, total, ret, db_save_analysis.
  destruct (flesch_reading_ease rt text) as [score|e]; [|discriminate].
  destruct (_analyze_readability rt self text score w) as [readability w1] eqn:E1.
  destruct (_analyze_structure rt self text w1) as [structure w2] eqn:E2.
  destruct (_analyze_completeness rt self text w2) as [completeness w3] eqn:E3.
  destruct (_analyze_style rt self text w3) as [style w4] eqn:E4.
  assert (Hdb : db_manager w4 = db_manager w).
  { pose proof (_ask_llm_db_manager rt self (readability_prompt rt text score) w) as H1.
    pose proof (_ask_llm_db_manager rt self (structure_prompt text) w1) as H2.
    pose proof (_ask_llm_db_manager rt self (completeness_prompt text) w2) as H3.
    pose proof (_ask_llm_db_manager rt self (style_prompt text) w3) as H4.
    unfold _analyze_readability, _analyze_structure, _analyze_completeness,
      _analyze_style in *.
    rewrite E1 in H1. rewrite E2 in H2. rewrite E3 in H3. rewrite E4 in H4.
    cbn in *. congruence. }
  rewrite Hdb.
  destruct (save_analysis rt session_id url text _ (db_manager w)) as [[[]|e] d] eqn:Es;
    intros H; [|discriminate].
  injection H as <- <-.
  exists score, readability, structure, completeness, style.
  split; [reflexivity|]. split; [reflexivity|]. exact Es.
Qed.

(** The row of an analysis does not depend on the score. *)
Lemma insert_values_any_score session_id url score score'
    readability structure completeness style :
  insert_values rt session_id url
    (make_results score' readability structure completeness style) =
  insert_values rt session_id url
    (make_results score readability structure completeness style).
Proof. reflexivity. Qed.

Lemma save_analysis_ok session_id url content results db db' :
  save_analysis rt session_id url content results db = (Ok tt, db') ->
  exists row,
    insert_values rt session_id url results = Ok row /\
    sessions db' = sessions db ++ [(next_rowid (sessions db), row)] /\
    records db' (bucket rt url) =
    if has_id session_id (records db (bucket rt url))
    then records db (bucket rt url)
    else records db (bucket rt url) ++
         [{| ChromaRecord.document := content;
             ChromaRecord.metadata := content_metadata rt session_id url results;
             ChromaRecord.id := session_id |}].
Proof.
  intros Hsave.
  pose proof (save_analysis_sessions rt session_id url content results db) as Hs.
  pose proof (save_analysis_outcome rt session_id url content results db) as Ho.
  rewrite Hsave in Hs, Ho. cbn [fst snd] in Hs, Ho.
  destruct (insert_values rt session_id url results) as [row|e] eqn:Erow; [|discriminate].
  exists row. split; [reflexivity|]. split; [exact Hs|].
  pose proof (save_analysis_records rt session_id url content results db row
                (bucket rt url) Erow) as Hr.
  rewrite Hsave in Hr. cbn [snd] in Hr. rewrite decide_True in Hr by reflexivity.
  unfold bucket, records in *.
  destruct (collection_add_error rt _ _ _); [discriminate | exact Hr].
Qed.

Lemma cell_value_not_float (c : cell) (x : float) : cell_value c <> VFloat x.
Proof. destruct c; discriminate. Qed.

Lemma fields_not_float (row : Row.t) (x : float) (field : value) :
  field ∈ fields row -> field <> VFloat x.
Proof.
  unfold fields. rewrite !elem_of_cons, elem_of_nil.
  intros [->|[->|[->|[->|[->|[->|[]]]]]]];
    first [discriminate | apply cell_value_not_float].
Qed.
End AnalysisFacts.

(** C8. A completed analysis appends one row to the sessions table, and
    that row is the same for every score the results could carry: it is
    built from the identifier, the URL and the four critiques alone. Each
    of the six fields any stored row gives back is text or NULL, so none is
    the score. *)
Theorem score_is_not_persisted (rt : Runtime) (self : DocumentAnalyzer)
    (session_id url text : string) (w : World)
    (results : list (string * value)) (w' : World) :
  analyze_document rt self session_id url text w = (Ok results, w') ->
  exists score readability structure completeness style row,
    results = make_results score readability structure completeness style /\
    sessions (db_manager w') =
    sessions (db_manager w) ++ [(next_rowid (sessions (db_manager w)), row)] /\
    (forall score',
        insert_values rt session_id url
          (make_results score' readability structure completeness style) = Ok row) /\
    length (fields row) = 6%nat /\
    (forall field, field ∈ fields row -> field <> VFloat score) /\
    (forall lookup stored field,
        get_session lookup (db_manager w') = Some stored ->
        field ∈ fields stored -> field <> VFloat score).
Proof.
  intros Hrun.
  destruct (analyze_document_ok rt self _ _ _ _ _ _ Hrun)
    as (score & readability & structure & completeness & style & _ & -> & Hsave).
  destruct (save_analysis_ok rt _ _ _ _ _ _ Hsave) as (row & Hrow & Hsessions & _).
  exists score, readability, structure, completeness, style, row.
  split; [reflexivity|]. split; [exact Hsessions|].
  split; [intros score'; exact Hrow|].
  split; [reflexivity|].
  split; intros; eapply fields_not_float; eassumption.
Qed.

(** C10. For a completed analysis the results dictionary has no
    ['readability_score'] key at its top level, so the summary computed for
    the content entry is the constant ["Readability: N/A"]; the entry with
    that summary is appended to the collection of the URL, unless the
    collection already holds an entry under the identifier, in which case
    it is left as it was. *)
Theorem analysis_summary_is_not_available (rt : Runtime) (self : DocumentAnalyzer)
    (session_id url text : string) (w : World)
    (results : list (string * value)) (w' : World) :
  analyze_document rt self session_id url text w = (Ok results, w') ->
  dict_lookup "readability_score" results = None /\
  dict_lookup "analysis_summary" (content_metadata rt session_id url results) =
  Some (VStr "Readability: N/A") /\
  default [] (chroma (db_manager w') !! ("url_" +:+ md5_hexdigest rt url)) =
  if has_id session_id
       (default [] (chroma (db_manager w) !! ("url_" +:+ md5_hexdigest rt url)))
  then default [] (chroma (db_manager w) !! ("url_" +:+ md5_hexdigest rt url))
  else
    default [] (chroma (db_manager w) !! ("url_" +:+ md5_hexdigest rt url)) ++
    [{| ChromaRecord.document := text;
        ChromaRecord.metadata :=
          [("session_id", VStr session_id);
           ("url", VStr url);
           ("analysis_summary", VStr "Readability: N/A")];
        ChromaRecord.id := session_id |}].
Proof.
  intros Hrun.
  destruct (analyze_document_ok rt self _ _ _ _ _ _ Hrun)
    as (score & readability & structure & completeness & style & _ & -> & Hsave).
  destruct (save_analysis_ok rt _ _ _ _ _ _ Hsave) as (row & _ & _ & Hrecords).
  split; [reflexivity|]. split; [reflexivity|]. exact Hrecords.
Qed.


(** ** The end-to-end scenario *)

Lemma e2e_analysis :
  analyze_document online keyed "id-1" "https://example.com/doc" "Hello world."
    fresh_world = (Ok e2e_results, e2e_world).
Proof. vm_compute. reflexivity. Qed.

Lemma score_is_not_persisted_witness :
  exists score readability structure completeness style row,
    e2e_results = make_results score readability structure completeness style /\
    sessions (db_manager e2e_world) =
    sessions (db_manager fresh_world) ++
    [(next_rowid (sessions (db_manager fresh_world)), row)] /\
    (forall score',
        insert_values online "id-1" "https://example.com/doc"
          (make_results score' readability structure completeness style) = Ok row) /\
    length (fields row) = 6%nat /\
    (forall field, field ∈ fields row -> field <> VFloat score) /\
    (forall lookup stored field,
        get_session lookup (db_manager e2e_world) = Some stored ->
        field ∈ fields stored -> field <> VFloat score).
Proof.
  apply (score_is_not_persisted online keyed "id-1" "https://example.com/doc"
           "Hello world." fresh_world e2e_results e2e_world).
  vm_compute. reflexivity.
Defined.

Lemma analysis_summary_is_not_available_witness :
  dict_lookup "readability_score" e2e_results = None /\
  dict_lookup "analysis_summary"
    (content_metadata online "id-1" "https://example.com/doc" e2e_results) =
  Some (VStr "Readability: N/A") /\
  default [] (chroma (db_manager e2e_world)
                !! ("url_" +:+ md5_hexdigest online "https://example.com/doc")) =
  [{| ChromaRecord.document := "Hello world.";
      ChromaRecord.metadata :=
        [("session_id", VStr "id-1");
         ("url", VStr "https://example.com/doc");
         ("analysis_summary", VStr "Readability: N/A")];
      ChromaRecord.id := "id-1" |}].
Proof.
  apply (analysis_summary_is_not_available online keyed "id-1" "https://example.com/doc"
           "Hello world." fresh_world e2e_results e2e_world).
  vm_compute. reflexivity.
Defined.

(** Analysing ["https://example.com/doc"] ends in a rerun on the results
    page, four requests sent, and the stored session reads back with the
    four critiques. *)
Example e2e_analyze_url :
  (analyze_url online keyed "id-1" "https://example.com/doc" fresh_world).1 = Rerun /\
  length (outbox (analyze_url online keyed "id-1" "https://example.com/doc"
                    fresh_world).2) = 4%nat /\
  get_session "id-1"
    (db_manager (analyze_url online keyed "id-1" "https://example.com/doc"
                   fresh_world).2) = Some e2e_row /\
  get_recent_sessions 5
    (db_manager (analyze_url online keyed "id-1" "https://example.com/doc"
                   fresh_world).2) = Ok [("id-1", "https://example.com/doc", 1)].
Proof. vm_compute. repeat split. Qed.


(** * Further properties *)

(** ** The preview of the extracted text *)

Lemma length_append (a b : string) :
  String.length (a +:+ b) = (String.length a + String.length b)%nat.
Proof.
  induction a as [|c a IH]; [reflexivity|].
  rewrite append_cons. cbn [String.length]. now rewrite IH.
Qed.

(** X1. For a limit that is not negative, [format_markdown_for_display]
    returns a text within the limit unchanged, and cuts a longer one to its
    first [max_length] characters followed by three dots; the preview is
    never more than three characters over the limit. *)
Theorem format_markdown_for_display_preview (markdown : string) (max_length : Z) :
  0 <= max_length ->
  (Z.of_nat (String.length markdown) <= max_length ->
   format_markdown_for_display markdown max_length = markdown) /\
  (max_length < Z.of_nat (String.length markdown) ->
   exists excerpt rest,
     markdown = excerpt +:+ rest /\
     Z.of_nat (String.length excerpt) = max_length /\
     format_markdown_for_display markdown max_length = excerpt +:+ "...") /\
  Z.of_nat (String.length (format_markdown_for_display markdown max_length))
  <= max_length + 3.
Proof.
  intros Hmax.
  assert (Hlong : max_length < Z.of_nat (String.length markdown) ->
                  format_markdown_for_display markdown max_length =
                  str_take (Z.to_nat max_length) markdown +:+ "...").
  { intros Hlt. unfold format_markdown_for_display, slice_to.
    destruct markdown as [|c m]; [cbn in Hlt; lia|].
    destruct (Z.ltb_spec max_length (Z.of_nat (String.length (String c m)))); [|lia].
    destruct (Z.leb_spec 0 max_length); [reflexivity | lia]. }
  assert (Hshort : Z.of_nat (String.length markdown) <= max_length ->
                   format_markdown_for_display markdown max_length = markdown).
  { intros Hle. unfold format_markdown_for_display.
    destruct markdown as [|c m]; [reflexivity|].
    destruct (Z.ltb_spec max_length (Z.of_nat (String.length (String c m))));
      [lia | reflexivity]. }
  split; [exact Hshort|]. split.
  - intros Hlt. destruct (str_take_prefix (Z.to_nat max_length) markdown) as [rest Hrest].
    exists (str_take (Z.to_nat max_length) markdown), rest.
    split; [exact Hrest|]. split; [|exact (Hlong Hlt)].
    rewrite str_take_length. lia.
  - destruct (Z.lt_ge_cases max_length (Z.of_nat (String.length markdown))) as [Hlt|Hge].
    + rewrite (Hlong Hlt), length_append, str_take_length. cbn [String.length]. lia.
    + rewrite Hshort by lia. lia.
Qed.

Lemma format_markdown_for_display_preview_witness :
  (exists excerpt rest,
      "Hello world." = excerpt +:+ rest /\
      Z.of_nat (String.length excerpt) = 5 /\
      format_markdown_for_display "Hello world." 5 = excerpt +:+ "...") /\
  format_markdown_for_display "Hello world." 1500 = "Hello world.".
Proof.
  destruct (format_markdown_for_display_preview "Hello world." 5 ltac:(lia))
    as (_ & Hcut & _).
  destruct (format_markdown_for_display_preview "Hello world." 1500 ltac:(lia))
    as (Hkeep & _).
  split.
  - apply Hcut. cbn. lia.
  - apply Hkeep. cbn. lia.
Defined.

(** With a negative limit the slice drops characters from the end. *)
Example format_markdown_for_display_negative :
  format_markdown_for_display "Hello" (-1) = "Hell...".
Proof. reflexivity. Qed.

(** ** A successful fetch *)

(** X2. [fetch_article_text] reports success exactly when the crawl returns
    a result that has a markdown attribute, whatever the attribute holds.
    The title then falls back to the empty string and no error is attached;
    the content is the fitted markdown when it holds text, the raw markdown
    otherwise, and [None] when the attribute itself is [None]. *)
Theorem fetch_article_text_success (rt : Runtime) (url : string) :
  (Extraction.success (fetch_article_text rt url) = true <->
   exists result markdown,
     arun rt url = CrawlReturned result /\
     CrawlResult.markdown result = Some markdown) /\
  (forall result markdown,
      arun rt url = CrawlReturned result ->
      CrawlResult.markdown result = Some markdown ->
      Extraction.error (fetch_article_text rt url) = None /\
      Extraction.title (fetch_article_text rt url) =
      default EmptyString (CrawlResult.title result) /\
      (markdown = None -> Extraction.content (fetch_article_text rt url) = None) /\
      (forall md fit,
          markdown = Some md -> Markdown.fit_markdown md = Some fit ->
          fit <> EmptyString ->
          Extraction.content (fetch_article_text rt url) = Some fit) /\
      (forall md,
          markdown = Some md ->
          Markdown.fit_markdown md = None \/ Markdown.fit_markdown md = Some EmptyString ->
          Extraction.content (fetch_article_text rt url) = Some (Markdown.raw md))).
Proof.
  unfold fetch_article_text, fetch_article_text_async.
  destruct (arun rt url) as [e|result] eqn:Erun.
  - split; [split; [intros [=] | intros (? & ? & [=] & _)] | intros ? ? [=]].
  - destruct (CrawlResult.markdown result) as [markdown|] eqn:Emd.
    + split; [split; [intros _; eauto | reflexivity]|].
      intros result' markdown' [= <-] Hmd. rewrite Emd in Hmd. injection Hmd as <-.
      cbn. split; [reflexivity|]. split; [reflexivity|]. split; [|split].
      * intros ->. reflexivity.
      * intros md fit -> -> Hfit. destruct fit; [contradiction | reflexivity].
      * intros md -> [-> | ->]; reflexivity.
    + split; [split; [intros [=] | intros (? & ? & [= <-] & Hmd); congruence]|].
      intros result' markdown' [= <-] Hmd. congruence.
Qed.

Lemma fetch_article_text_success_witness :
  Extraction.content
    (fetch_article_text (scripted hello_page bad_gateway) "https://example.com/doc") =
  Some "Hello world." /\
  Extraction.content
    (fetch_article_text (scripted failed_page bad_gateway) "https://example.com/doc") =
  None.
Proof.
  split.
  - destruct (fetch_article_text_success (scripted hello_page bad_gateway)
                "https://example.com/doc") as (_ & Hok).
    destruct (Hok {| CrawlResult.markdown :=
                       Some (Some {| Markdown.raw := "# Hello - Hello world.";
                                     Markdown.fit_markdown := Some "Hello world." |});
                     CrawlResult.title := Some "Hello" |}
                  (Some {| Markdown.raw := "# Hello - Hello world.";
                           Markdown.fit_markdown := Some "Hello world." |})
                  eq_refl eq_refl) as (_ & _ & _ & Hfit & _).
    apply (Hfit {| Markdown.raw := "# Hello - Hello world.";
                   Markdown.fit_markdown := Some "Hello world." |}
                "Hello world." eq_refl eq_refl). discriminate.
  - destruct (fetch_article_text_success (scripted failed_page bad_gateway)
                "https://example.com/doc") as (_ & Hok).
    destruct (Hok {| CrawlResult.markdown := Some None; CrawlResult.title := None |}
                  None eq_refl eq_refl) as (_ & _ & Hnone & _).
    apply Hnone. reflexivity.
Defined.


(** ** What the critic can answer *)

Section AnswerFacts.
Variable rt : Runtime.
Variable self : DocumentAnalyzer.

Lemma _ask_llm_raised prompt w e :
  truthy (api_key self) = true ->
  http_post rt (outbox w) (build_request self prompt) = PostRaised e ->
  (_ask_llm rt self prompt w).1 = VStr ("Error connecting to API: " +:+ exn_text rt e).
Proof.
  intros Hkey Hpost. unfold _ask_llm. rewrite Hkey, Hpost. reflexivity.
Qed.

(** The answers of [read_response] that are not error texts come from the
    path [response_json["choices"][0]["message"]["content"]]. *)
Lemma read_response_ok response v :
  read_response rt response = Ok v ->
  (exists detail, v = VStr ("API Error: " +:+ detail)) \/
  (exists detail, v = VStr ("Unexpected API response format: " +:+ detail)) \/
  (exists body choices first message,
      Response.status_code response = 200 /\
      Response.json response = Some body /\
      getitem body "choices" = Ok choices /\
      getitem0 choices = Ok first /\
      getitem first "message" = Ok message /\
      getitem message "content" = Ok v).
Proof.
  unfold read_response.
  destruct (Response.json response) as [body|].
  2:{ intros [= <-]. left. eexists. reflexivity. }
  destruct (Z.eqb_spec (Response.status_code response) 200) as [Hstatus|Hstatus];
    cbn [negb].
  - destruct (py_in "error" body) as [[|]|e]; cbn [rbind]; [| |discriminate].
    + destruct (getitem body "error") as [x|e]; cbn [rbind]; [|discriminate].
      intros [= <-]. left. eexists. reflexivity.
    + destruct (py_in "choices" body) as [[|]|e]; cbn [rbind negb]; [| |discriminate].
      * destruct (getitem body "choices") as [choices|e] eqn:E1; cbn [rbind];
          [|discriminate].
        destruct (getitem0 choices) as [first|e] eqn:E2; cbn [rbind]; [|discriminate].
        destruct (getitem first "message") as [message|e] eqn:E3; cbn [rbind];
          [|discriminate].
        intros Hv. right. right. exists body, choices, first, message.
        repeat split; assumption.
      * intros [= <-]. right. left. eexists. reflexivity.
  - destruct (get_method body "error" body) as [x|e]; cbn [rbind]; [|discriminate].
    intros [= <-]. left. eexists.
    rewrite <- (append_assoc "API Error: " "HTTP "). reflexivity.
Qed.
Lemma _ask_llm_session_state prompt w :
  session_state (_ask_llm rt self prompt w).2 = session_state w.
Proof.
  unfold _ask_llm. destruct (negb _); [reflexivity|].
  destruct (http_post rt _ _) as [e|response]; [reflexivity|].
  destruct (read_response rt response); reflexivity.
Qed.

Lemma _ask_llm_page prompt w : page (_ask_llm rt self prompt w).2 = page w.
Proof.
  unfold _ask_llm. destruct (negb _); [reflexivity|].
  destruct (http_post rt _ _) as [e|response]; [reflexivity|].
  destruct (read_response rt response); reflexivity.
Qed.

Lemma _ask_llm_sent prompt w :
  outbox (_ask_llm rt self prompt w).2 =
  outbox w ++ (if truthy (api_key self) then [build_request self prompt] else []).
Proof.
  destruct (truthy (api_key self)) eqn:Hkey.
  - apply _ask_llm_outbox, Hkey.
  - rewrite _ask_llm_keyless by exact Hkey. cbn [snd]. now rewrite app_nil_r.
Qed.
End AnswerFacts.

(** X3. Whatever the endpoint does, [_ask_llm] answers with the sentinel,
    with a text that starts with "Error connecting to API: ", "API Error: "
    or "Unexpected API response format: ", or, for an answer with status 200
    and a decoded body, with the value found at
    [choices][0][message][content]. *)
Theorem ask_llm_outcomes (rt : Runtime) (self : DocumentAnalyzer)
    (prompt : string) (w : World) :
  (_ask_llm rt self prompt w).1 = VStr api_key_sentinel \/
  (exists detail,
      (_ask_llm rt self prompt w).1 = VStr ("Error connecting to API: " +:+ detail)) \/
  (exists detail, (_ask_llm rt self prompt w).1 = VStr ("API Error: " +:+ detail)) \/
  (exists detail,
      (_ask_llm rt self prompt w).1 =
      VStr ("Unexpected API response format: " +:+ detail)) \/
  (exists response body choices first message,
      http_post rt (outbox w) (build_request self prompt) = PostReturned response /\
      Response.status_code response = 200 /\
      Response.json response = Some body /\
      getitem body "choices" = Ok choices /\
      getitem0 choices = Ok first /\
      getitem first "message" = Ok message /\
      getitem message "content" = Ok (_ask_llm rt self prompt w).1).
Proof.
  destruct (truthy (api_key self)) eqn:Hkey.
  2:{ left. rewrite _ask_llm_keyless by exact Hkey. reflexivity. }
  destruct (http_post rt (outbox w) (build_request self prompt)) as [e|response] eqn:Hpost.
  { right. left. eexists. apply _ask_llm_raised; eassumption. }
  rewrite (_ask_llm_answered rt self prompt w response Hkey Hpost).
  destruct (read_response rt response) as [v|e] eqn:Hread.
  2:{ right. left. eexists. reflexivity. }
  destruct (read_response_ok rt response v Hread)
    as [Herr | [Hfmt | (body & choices & first & message & H)]].
  - right. right. left. exact Herr.
  - right. right. right. left. exact Hfmt.
  - right. right. right. right. exists response, body, choices, first, message.
    split; [reflexivity | exact H].
Qed.

(** X4. A 200 answer whose JSON object has no ["error"] key and whose
    [choices] starts with an object holding [message.content] makes
    [_ask_llm] return that content as it is. *)
Theorem ask_llm_returns_content (rt : Runtime) (self : DocumentAnalyzer)
    (prompt : string) (w : World) (response : Response.t)
    (body first message : list (string * value)) (others : list value)
    (content : value) :
  truthy (api_key self) = true ->
  http_post rt (outbox w) (build_request self prompt) = PostReturned response ->
  Response.status_code response = 200 ->
  Response.json response = Some (VDict body) ->
  dict_lookup "error" body = None ->
  dict_lookup "choices" body = Some (VList (VDict first :: others)) ->
  dict_lookup "message" first = Some (VDict message) ->
  dict_lookup "content" message = Some content ->
  (_ask_llm rt self prompt w).1 = content.
Proof.
  intros Hkey Hpost Hstatus Hjson Herror Hchoices Hmessage Hcontent.
  rewrite (_ask_llm_answered rt self prompt w response Hkey Hpost).
  unfold read_response. rewrite Hjson, Hstatus.
  cbn. rewrite Herror, Hchoices. cbn. rewrite Hmessage. cbn. rewrite Hcontent.
  reflexivity.
Qed.

Lemma ask_llm_returns_content_witness :
  (_ask_llm online keyed "prompt" fresh_world).1 = VStr assessment_ok.
Proof.
  apply (ask_llm_returns_content online keyed "prompt" fresh_world
           {| Response.status_code := 200; Response.text := "{...}";
              Response.json :=
                Some (VDict [("choices",
                              VList [VDict [("message",
                                             VDict [("role", VStr "assistant");
                                                    ("content", VStr assessment_ok)])]])]) |}
           [("choices",
             VList [VDict [("message",
                            VDict [("role", VStr "assistant");
                                   ("content", VStr assessment_ok)])]])]
           [("message", VDict [("role", VStr "assistant");
                               ("content", VStr assessment_ok)])]
           [("role", VStr "assistant"); ("content", VStr assessment_ok)]
           []); reflexivity.
Defined.

(** X5. In a 200 answer an ["error"] key wins: the text returned is
    "API Error: " followed by the error, whether or not the object also
    carries [choices]. *)
Theorem ask_llm_error_key_first (rt : Runtime) (self : DocumentAnalyzer)
    (prompt : string) (w : World) (response : Response.t)
    (body : list (string * value)) (e : value) :
  truthy (api_key self) = true ->
  http_post rt (outbox w) (build_request self prompt) = PostReturned response ->
  Response.status_code response = 200 ->
  Response.json response = Some (VDict body) ->
  dict_lookup "error" body = Some e ->
  (_ask_llm rt self prompt w).1 = VStr ("API Error: " +:+ py_str rt e).
Proof.
  intros Hkey Hpost Hstatus Hjson Herror.
  rewrite (_ask_llm_answered rt self prompt w response Hkey Hpost).
  unfold read_response. rewrite Hjson, Hstatus. cbn. rewrite Herror. reflexivity.
Qed.

Lemma ask_llm_error_key_first_witness :
  (_ask_llm (scripted hello_page answer_error_and_choices) keyed "prompt" fresh_world).1 =
  VStr "API Error: quota exceeded".
Proof.
  apply (ask_llm_error_key_first (scripted hello_page answer_error_and_choices) keyed
           "prompt" fresh_world
           {| Response.status_code := 200; Response.text := "{...}";
              Response.json :=
                Some (VDict [("choices",
                              VList [VDict [("message",
                                             VDict [("content", VStr "fine")])]]);
                             ("error", VStr "quota exceeded")]) |}
           [("choices",
             VList [VDict [("message", VDict [("content", VStr "fine")])]]);
            ("error", VStr "quota exceeded")]
           (VStr "quota exceeded")); reflexivity.
Defined.

(** X6. A call of [_ask_llm] leaves the stores, the session state and the
    page alone. With a credential it sends exactly one request, carrying the
    bearer token, the fixed model and the prompt; without one it sends
    none. *)
Theorem ask_llm_footprint (rt : Runtime) (self : DocumentAnalyzer)
    (prompt : string) (w : World) :
  db_manager (_ask_llm rt self prompt w).2 = db_manager w /\
  session_state (_ask_llm rt self prompt w).2 = session_state w /\
  page (_ask_llm rt self prompt w).2 = page w /\
  outbox (_ask_llm rt self prompt w).2 =
  outbox w ++
  match api_key self with
  | Some (String c key) =>
      [{| Request.authorization := "Bearer " +:+ String c key;
          Request.model := "meta-llama/llama-3.3-8b-instruct:free";
          Request.content := prompt |}]
  | _ => []
  end.
Proof.
  split; [apply _ask_llm_db_manager|].
  split; [apply _ask_llm_session_state|].
  split; [apply _ask_llm_page|].
  rewrite _ask_llm_sent. unfold build_request.
  destruct (api_key self) as [[|c key]|]; reflexivity.
Qed.


(** ** A run of the analysis *)

Section RunFacts.
Variable rt : Runtime.
Variable self : DocumentAnalyzer.

Lemma ask_llm_pair prompt w :
  _ask_llm rt self prompt w = ((_ask_llm rt self prompt w).1, (_ask_llm rt self prompt w).2).
Proof. destruct (_ask_llm rt self prompt w); reflexivity. Qed.

(** Once the score is there, the analysis is four critiques in a row and a
    save on the manager they left alone. *)
Lemma analyze_document_scored session_id url text w score :
  flesch_reading_ease rt text = Ok score ->
  exists readability structure completeness style w4,
    db_manager w4 = db_manager w /\
    session_state w4 = session_state w /\
    page w4 = page w /\
    outbox w4 =
    outbox w ++
    (if truthy (api_key self)
     then [build_request self (readability_prompt rt text score);
           build_request self (structure_prompt text);
           build_request self (completeness_prompt text);
           build_request self (style_prompt text)]
     else []) /\
    (truthy (api_key self) = false ->
     readability = VStr api_key_sentinel /\ structure = VStr api_key_sentinel /\
     completeness = VStr api_key_sentinel /\ style = VStr api_key_sentinel) /\
    analyze_document rt self session_id url text w =
    (match (save_analysis rt session_id url text
              (make_results score readability structure completeness style)
              (db_manager w)).1 with
     | Ok _ => Ok (make_results score readability structure completeness style)
     | Raise e => Raise e
     end,
     with_db w4
       (save_analysis rt session_id url text
          (make_results score readability structure completeness style)
          (db_manager w)).2).
Proof.
  intros Hscore.
  unfold analyze_document, bind, lift, total, ret, db_save_analysis.
  rewrite Hscore.
  unfold _analyze_readability, _analyze_structure, _analyze_completeness, _analyze_style.
  set (p1 := readability_prompt rt text score).
  set (p2 := structure_prompt text).
  set (p3 := completeness_prompt text).
  set (p4 := style_prompt text).
  rewrite (ask_llm_pair p1 w).
  set (w1 := (_ask_llm rt self p1 w).2).
  rewrite (ask_llm_pair p2 w1).
  set (w2 := (_ask_llm rt self p2 w1).2).
  rewrite (ask_llm_pair p3 w2).
  set (w3 := (_ask_llm rt self p3 w2).2).
  rewrite (ask_llm_pair p4 w3).
  set (w4 := (_ask_llm rt self p4 w3).2).
  pose proof (_ask_llm_db_manager rt self p1 w) as Hd1.
  pose proof (_ask_llm_db_manager rt self p2 w1) as Hd2.
  pose proof (_ask_llm_db_manager rt self p3 w2) as Hd3.
  pose proof (_ask_llm_db_manager rt self p4 w3) as Hd4.
  pose proof (_ask_llm_session_state rt self p1 w) as Hs1.
  pose proof (_ask_llm_session_state rt self p2 w1) as Hs2.
  pose proof (_ask_llm_session_state rt self p3 w2) as Hs3.
  pose proof (_ask_llm_session_state rt self p4 w3) as Hs4.
  pose proof (_ask_llm_page rt self p1 w) as Hp1.
  pose proof (_ask_llm_page rt self p2 w1) as Hp2.
  pose proof (_ask_llm_page rt self p3 w2) as Hp3.
  pose proof (_ask_llm_page rt self p4 w3) as Hp4.
  pose proof (_ask_llm_sent rt self p1 w) as Ho1.
  pose proof (_ask_llm_sent rt self p2 w1) as Ho2.
  pose proof (_ask_llm_sent rt self p3 w2) as Ho3.
  pose proof (_ask_llm_sent rt self p4 w3) as Ho4.
  fold w1 in Hd1, Hs1, Hp1, Ho1. fold w2 in Hd2, Hs2, Hp2, Ho2.
  fold w3 in Hd3, Hs3, Hp3, Ho3. fold w4 in Hd4, Hs4, Hp4, Ho4.
  assert (Hdb : db_manager w4 = db_manager w) by congruence.
  exists (_ask_llm rt self p1 w).1, (_ask_llm rt self p2 w1).1,
         (_ask_llm rt self p3 w2).1, (_ask_llm rt self p4 w3).1, w4.
  split; [exact Hdb|]. split; [congruence|]. split; [congruence|].
  split; [|split].
  - rewrite Ho4, Ho3, Ho2, Ho1.
    destruct (truthy (api_key self)); rewrite <- !app_assoc; reflexivity.
  - intros Hkey. rewrite !_ask_llm_keyless by exact Hkey. repeat split.
  - rewrite Hdb.
    destruct (save_analysis rt session_id url text _ (db_manager w)) as [[[]|e] d];
      reflexivity.
Qed.
End RunFacts.

(** X7. With a credential set and a score computed, [analyze_document]
    sends four requests, in the order readability, structure, completeness,
    style, each with its category's prompt, whether or not the save
    succeeds; it changes neither the session state nor the page. *)
Theorem analyze_document_requests (rt : Runtime) (self : DocumentAnalyzer)
    (session_id url text : string) (w : World) (score : float) :
  flesch_reading_ease rt text = Ok score ->
  truthy (api_key self) = true ->
  Request.content <$> outbox (analyze_document rt self session_id url text w).2 =
  (Request.content <$> outbox w) ++
  [readability_prompt rt text score; structure_prompt text;
   completeness_prompt text; style_prompt text] /\
  session_state (analyze_document rt self session_id url text w).2 = session_state w /\
  page (analyze_document rt self session_id url text w).2 = page w.
Proof.
  intros Hscore Hkey.
  destruct (analyze_document_scored rt self session_id url text w score Hscore)
    as (r & s & c & y & w4 & _ & Hstate & Hpage & Hout & _ & ->).
  cbn [snd with_db outbox session_state page].
  rewrite Hout, Hkey, fmap_app. repeat split; assumption.
Qed.

Lemma analyze_document_requests_witness :
  Request.content <$>
    outbox (analyze_document online keyed "id-1" "https://example.com/doc"
              "Hello world." fresh_world).2 =
  [readability_prompt online "Hello world." 100; structure_prompt "Hello world.";
   completeness_prompt "Hello world."; style_prompt "Hello world."].
Proof.
  apply (analyze_document_requests online keyed "id-1" "https://example.com/doc"
           "Hello world." fresh_world 100); reflexivity.
Defined.

(** X8. Without a credential the analysis still runs to the save: no
    request is sent, the four critiques are the sentinel text, the call
    returns them unless [collection.add] raises, and either way, under an
    identifier not stored before, the saved row reads back with the sentinel
    in all four columns. *)
Theorem analyze_document_without_api_key (rt : Runtime) (self : DocumentAnalyzer)
    (session_id url text : string) (w : World) (score : float) :
  flesch_reading_ease rt text = Ok score ->
  truthy (api_key self) = false ->
  get_session session_id (db_manager w) = None ->
  (analyze_document rt self session_id url text w).1 =
  match collection_add_error rt (bucket rt url) (records (db_manager w) (bucket rt url))
          {| ChromaRecord.document := text;
             ChromaRecord.metadata :=
               content_metadata rt session_id url
                 (make_results score (VStr api_key_sentinel) (VStr api_key_sentinel)
                    (VStr api_key_sentinel) (VStr api_key_sentinel));
             ChromaRecord.id := session_id |} with
  | None =>
      Ok (make_results score (VStr api_key_sentinel) (VStr api_key_sentinel)
            (VStr api_key_sentinel) (VStr api_key_sentinel))
  | Some e => Raise e
  end /\
  outbox (analyze_document rt self session_id url text w).2 = outbox w /\
  get_session session_id
    (db_manager (analyze_document rt self session_id url text w).2) =
  Some {| Row.session_id := session_id; Row.url := url;
          Row.readability := CText api_key_sentinel;
          Row.structure := CText api_key_sentinel;
          Row.completeness := CText api_key_sentinel;
          Row.style := CText api_key_sentinel |}.
Proof.
  intros Hscore Hkey Hfresh.
  destruct (analyze_document_scored rt self session_id url text w score Hscore)
    as (r & s & c & y & w4 & _ & _ & _ & Hout & Hsentinel & ->).
  destruct (Hsentinel Hkey) as (-> & -> & -> & ->).
  cbn [fst snd with_db outbox db_manager].
  rewrite Hout, Hkey, app_nil_r.
  split; [|split; [reflexivity|]].
  - rewrite save_analysis_outcome. unfold bucket, records.
    cbn [insert_values]. destruct (collection_add_error rt _ _ _); reflexivity.
  - apply get_session_after_save; [exact Hfresh | reflexivity].
Qed.

Lemma analyze_document_without_api_key_witness :
  get_session "id-1"
    (db_manager (analyze_document online keyless "id-1" "https://example.com/doc"
                   "Hello world." fresh_world).2) =
  Some {| Row.session_id := "id-1"; Row.url := "https://example.com/doc";
          Row.readability := CText api_key_sentinel;
          Row.structure := CText api_key_sentinel;
          Row.completeness := CText api_key_sentinel;
          Row.style := CText api_key_sentinel |}.
Proof.
  apply (analyze_document_without_api_key online keyless "id-1"
           "https://example.com/doc" "Hello world." fresh_world 100); reflexivity.
Defined.

(** X9. What a completed analysis returns is what it stored: under an
    identifier not stored before, the row reads back with the identifier,
    the URL, and the four critiques of the returned dictionary as SQLite
    bound them. *)
Theorem analyze_document_round_trip (rt : Runtime) (self : DocumentAnalyzer)
    (session_id url text : string) (w : World)
    (results : list (string * value)) (w' : World) :
  analyze_document rt self session_id url text w = (Ok results, w') ->
  get_session session_id (db_manager w) = None ->
  exists row,
    get_session session_id (db_manager w') = Some row /\
    Row.session_id row = session_id /\
    Row.url row = url /\
    rbind (readability_text results) (sqlite_bind rt) = Ok (Row.readability row) /\
    rbind (getitem (VDict results) "structure") (sqlite_bind rt) = Ok (Row.structure row) /\
    rbind (getitem (VDict results) "completeness") (sqlite_bind rt) =
    Ok (Row.completeness row) /\
    rbind (getitem (VDict results) "style") (sqlite_bind rt) = Ok (Row.style row).
Proof.
  intros Hrun Hfresh.
  destruct (analyze_document_ok rt self _ _ _ _ _ _ Hrun)
    as (score & r & s & c & y & _ & -> & Hsave).
  destruct (save_analysis_ok rt _ _ _ _ _ _ Hsave) as (row & Hrow & _ & _).
  exists row.
  split.
  { replace (db_manager w') with
      (save_analysis rt session_id url text (make_results score r s c y) (db_manager w)).2
      by now rewrite Hsave.
    apply get_session_after_save; assumption. }
  destruct (insert_values_ids rt _ _ _ _ Hrow) as [Hid Hurl].
  split; [exact Hid|]. split; [exact Hurl|].
  unfold insert_values in Hrow. cbn in Hrow. cbn.
  destruct (sqlite_bind rt r) as [cr|]; [|discriminate].
  destruct (sqlite_bind rt s) as [cs|]; [|discriminate].
  destruct (sqlite_bind rt c) as [cc|]; [|discriminate].
  destruct (sqlite_bind rt y) as [cy|]; [|discriminate].
  cbn in Hrow. injection Hrow as <-. repeat split.
Qed.

Lemma analyze_document_round_trip_witness :
  exists row,
    get_session "id-1" (db_manager e2e_world) = Some row /\
    Row.session_id row = "id-1" /\
    Row.url row = "https://example.com/doc" /\
    rbind (readability_text e2e_results) (sqlite_bind online) = Ok (Row.readability row) /\
    rbind (getitem (VDict e2e_results) "structure") (sqlite_bind online) =
    Ok (Row.structure row) /\
    rbind (getitem (VDict e2e_results) "completeness") (sqlite_bind online) =
    Ok (Row.completeness row) /\
    rbind (getitem (VDict e2e_results) "style") (sqlite_bind online) = Ok (Row.style row).
Proof.
  apply (analyze_document_round_trip online keyed "id-1" "https://example.com/doc"
           "Hello world." fresh_world e2e_results e2e_world).
  - vm_compute. reflexivity.
  - reflexivity.
Defined.


(** ** Saving: success, failure and what stays *)

Section SaveFacts.
Variable rt : Runtime.

Lemma sqlite_bind_ok (v : value) :
  bindable v <-> exists c, sqlite_bind rt v = Ok c.
Proof.
  destruct v as [| b | n | x | s | l | d]; cbn.
  - split; [eauto | trivial].
  - split; [eauto | trivial].
  - destruct (int64 n).
    + split; [eauto | trivial].
    + split; [discriminate | intros [c H]; discriminate].
  - split; [eauto | trivial].
  - split; [eauto | trivial].
  - split; [contradiction | intros [c H]; discriminate].
  - split; [contradiction | intros [c H]; discriminate].
Qed.

End SaveFacts.

(** X10. As long as [collection.add] accepts the entry, [save_analysis]
    succeeds exactly when the four values are found in the results and each
    can be bound as an SQLite parameter; when it raises, the manager is left
    exactly as it was: no row, no content entry, no cached collection. *)
Theorem save_analysis_all_or_nothing (rt : Runtime) (session_id url content : string)
    (results : list (string * value)) (db : DatabaseManager) :
  collection_add_error rt (bucket rt url) (records db (bucket rt url))
    {| ChromaRecord.document := content;
       ChromaRecord.metadata := content_metadata rt session_id url results;
       ChromaRecord.id := session_id |} = None ->
  ((save_analysis rt session_id url content results db).1 = Ok tt <->
   exists r s c y,
     readability_text results = Ok r /\
     getitem (VDict results) "structure" = Ok s /\
     getitem (VDict results) "completeness" = Ok c /\
     getitem (VDict results) "style" = Ok y /\
     bindable r /\ bindable s /\ bindable c /\ bindable y) /\
  (forall e,
      (save_analysis rt session_id url content results db).1 = Raise e ->
      (save_analysis rt session_id url content results db).2 = db).
Proof.
  intros Haccepted. unfold bucket, records in Haccepted. split.
  2:{ intros e. rewrite save_analysis_outcome, Haccepted. unfold save_analysis.
      destruct (insert_values rt session_id url results) as [row|e'];
        [discriminate | reflexivity]. }
  rewrite save_analysis_outcome, Haccepted. unfold insert_values. split.
  - destruct (readability_text results) as [r|]; [|discriminate].
    destruct (getitem (VDict results) "structure") as [s|]; [|discriminate].
    destruct (getitem (VDict results) "completeness") as [c|]; [|discriminate].
    destruct (getitem (VDict results) "style") as [y|]; [|discriminate].
    cbn [rbind].
    destruct (sqlite_bind rt r) as [cr|] eqn:Er; [|discriminate].
    destruct (sqlite_bind rt s) as [cs|] eqn:Es; [|discriminate].
    destruct (sqlite_bind rt c) as [cc|] eqn:Ec; [|discriminate].
    destruct (sqlite_bind rt y) as [cy|] eqn:Ey; [|discriminate].
    intros _. exists r, s, c, y.
    repeat split; try reflexivity; apply (sqlite_bind_ok rt); eauto.
  - intros (r & s & c & y & -> & -> & -> & -> & Hr & Hs & Hc & Hy).
    apply (sqlite_bind_ok rt) in Hr as [cr Hr], Hs as [cs Hs], Hc as [cc Hc], Hy as [cy Hy].
    cbn [rbind]. rewrite Hr, Hs, Hc, Hy. reflexivity.
Qed.

Lemma save_analysis_all_or_nothing_witness :
  (save_analysis offline "id-1" "https://a.example/doc" "A"
     (make_results 100 (VStr "r") (VList [VStr "a"; VStr "b"]) (VStr "c") (VStr "y"))
     init_databases).2 = init_databases.
Proof.
  destruct (save_analysis_all_or_nothing offline "id-1" "https://a.example/doc" "A"
              (make_results 100 (VStr "r") (VList [VStr "a"; VStr "b"]) (VStr "c")
                 (VStr "y"))
              init_databases eq_refl) as [_ Hraise].
  apply (Hraise (InterfaceError (VList [VStr "a"; VStr "b"]))). reflexivity.
Defined.

(** With an empty identifier the row is written and then [collection.add]
    refuses the entry: the save raises with the row left in the table. *)
Example save_analysis_empty_id :
  (save_analysis offline EmptyString "https://a.example/doc" "A"
     (Save.analysis_results first_save) init_databases).1 =
  Raise (LibraryError "expected a non-empty id") /\
  length (sessions (save_analysis offline EmptyString "https://a.example/doc" "A"
                      (Save.analysis_results first_save) init_databases).2) = 1%nat.
Proof. split; reflexivity. Qed.

(** A critique that decoded to a JSON array cannot be bound: the save
    raises and nothing is written. *)
Example save_analysis_structured_critique :
  save_analysis offline "id-1" "https://a.example/doc" "A"
    (make_results 100 (VStr "r") (VList [VStr "a"; VStr "b"]) (VStr "c") (VStr "y"))
    init_databases =
  (Raise (InterfaceError (VList [VStr "a"; VStr "b"])), init_databases).
Proof. reflexivity. Qed.

(** X11. When one of the keys ["readability"], ["structure"],
    ["completeness"], ["style"] is missing from the results, [save_analysis]
    raises a [KeyError] and writes nothing. *)
Theorem save_analysis_missing_key (rt : Runtime) (session_id url content : string)
    (results : list (string * value)) (db : DatabaseManager) :
  dict_lookup "readability" results = None \/
  dict_lookup "structure" results = None \/
  dict_lookup "completeness" results = None \/
  dict_lookup "style" results = None ->
  exists key,
    save_analysis rt session_id url content results db = (Raise (KeyError (VStr key)), db).
Proof.
  intros Hmissing.
  assert (exists key, insert_values rt session_id url results = Raise (KeyError (VStr key)))
    as [key Hkey].
  { unfold insert_values, readability_text, getitem, rbind.
    destruct (dict_lookup "readability" results) as [r|]; [|eauto].
    destruct r as [| | | | | |d];
      try (destruct (dict_lookup "structure" results); [|eauto];
           destruct (dict_lookup "completeness" results); [|eauto];
           destruct (dict_lookup "style" results); [|eauto];
           destruct Hmissing as [|[|[|]]]; discriminate).
    destruct (dict_lookup "analysis" d); [|eauto].
    destruct (dict_lookup "structure" results); [|eauto].
    destruct (dict_lookup "completeness" results); [|eauto].
    destruct (dict_lookup "style" results); [|eauto].
    destruct Hmissing as [|[|[|]]]; discriminate. }
  exists key. unfold save_analysis. rewrite Hkey. reflexivity.
Qed.

Lemma save_analysis_missing_key_witness :
  exists key,
    save_analysis offline "id-1" "https://a.example/doc" "A"
      [("readability", VStr "r"); ("structure", VStr "s"); ("style", VStr "y")]
      init_databases = (Raise (KeyError (VStr key)), init_databases).
Proof.
  apply (save_analysis_missing_key offline "id-1" "https://a.example/doc" "A"
           [("readability", VStr "r"); ("structure", VStr "s"); ("style", VStr "y")]
           init_databases).
  right. right. left. reflexivity.
Defined.


(** ** Lookups in the sessions table *)

Lemma find_session_some session_id (table : list (Z * Row.t)) r :
  List.find (fun r => String.eqb (Row.session_id r.2) session_id) table = Some r ->
  Row.session_id r.2 = session_id /\ r ∈ table.
Proof.
  induction table as [|x table IH]; [discriminate|].
  cbn [List.find]. destruct (String.eqb_spec (Row.session_id x.2) session_id) as [E|E].
  - intros [= <-]. split; [exact E | left].
  - intros H. destruct (IH H) as [Hid Hin]. split; [exact Hid | now right].
Qed.

Lemma find_session_none session_id (table : list (Z * Row.t)) :
  List.find (fun r => String.eqb (Row.session_id r.2) session_id) table = None <->
  forall r, r ∈ table -> Row.session_id r.2 <> session_id.
Proof.
  induction table as [|x table IH].
  - split; [intros _ r Hr; inversion Hr | reflexivity].
  - cbn [List.find]. destruct (String.eqb_spec (Row.session_id x.2) session_id) as [E|E].
    + split; [discriminate|]. intros H. exfalso. apply (H x); [left | exact E].
    + rewrite IH. split.
      * intros H r Hr. apply elem_of_cons in Hr as [->|Hr]; [exact E | now apply H].
      * intros H r Hr. apply H. now right.
Qed.

(** X12. A row [get_session] returns carries the identifier asked for and
    is a row of the table; [get_session] returns [None] exactly when no row
    of the table carries the identifier. *)
Theorem get_session_sound_and_complete (session_id : string) (db : DatabaseManager) :
  (forall row,
      get_session session_id db = Some row ->
      Row.session_id row = session_id /\ exists rowid, (rowid, row) ∈ sessions db) /\
  (get_session session_id db = None <->
   forall r, r ∈ sessions db -> Row.session_id r.2 <> session_id).
Proof.
  unfold get_session. split.
  - intros row H.
    destruct (List.find _ (sessions db)) as [[rowid row']|] eqn:E; [|discriminate].
    injection H as <-. apply find_session_some in E as [Hid Hin].
    split; [exact Hid | eauto].
  - rewrite <- find_session_none.
    destruct (List.find _ (sessions db)); cbn; split; intros; congruence.
Qed.

(** X13. [save_analysis] only appends: the table after the call is the
    table before followed by at most one row, and every lookup that found a
    row before finds the same row after, also for the identifier being
    saved. *)
Theorem save_analysis_keeps_rows (rt : Runtime) (session_id url content : string)
    (results : list (string * value)) (db : DatabaseManager) :
  (exists added,
      sessions (save_analysis rt session_id url content results db).2 =
      sessions db ++ added /\ (length added <= 1)%nat) /\
  (forall other row,
      get_session other db = Some row ->
      get_session other (save_analysis rt session_id url content results db).2 = Some row).
Proof.
  rewrite save_analysis_sessions. split.
  - destruct (insert_values rt session_id url results) as [row|e].
    + eexists. split; [reflexivity | cbn; lia].
    + exists []. split; [now rewrite app_nil_r | cbn; lia].
  - intros other row. unfold get_session. rewrite save_analysis_sessions.
    destruct (insert_values rt session_id url results) as [new|e]; [|trivial].
    rewrite find_session_app.
    destruct (List.find _ (sessions db)) as [x|]; [trivial | discriminate].
Qed.

Lemma save_analysis_keeps_rows_witness :
  get_session "id-1"
    (save_analysis offline "id-2" "https://b.example/doc" "B"
       (Save.analysis_results second_save) (db_after offline [first_save])).2 =
  Some first_row.
Proof.
  apply (proj2 (save_analysis_keeps_rows offline "id-2" "https://b.example/doc" "B"
                  (Save.analysis_results second_save) (db_after offline [first_save]))).
  reflexivity.
Defined.

(** ** The listing, on any table *)

Lemma insert_desc_permutation x l : insert_desc x l ≡ₚ x :: l.
Proof.
  induction l as [|y l IH]; [reflexivity|].
  cbn [insert_desc]. destruct (y.1 <=? x.1); [reflexivity|].
  rewrite IH. apply Permutation_swap.
Qed.

Lemma order_by_rowid_desc_permutation table : order_by_rowid_desc table ≡ₚ table.
Proof.
  induction table as [|x table IH]; [reflexivity|].
  unfold order_by_rowid_desc in *. cbn [foldr].
  rewrite insert_desc_permutation. now rewrite IH.
Qed.

Lemma insert_desc_sorted x l :
  StronglySorted (fun a b : Z * Row.t => b.1 <= a.1) l ->
  StronglySorted (fun a b : Z * Row.t => b.1 <= a.1) (insert_desc x l).
Proof.
  induction 1 as [|y l Hsorted IH Hall]; cbn [insert_desc].
  - repeat constructor.
  - destruct (Z.leb_spec y.1 x.1) as [Hle|Hlt].
    + constructor; [constructor; assumption|].
      constructor; [exact Hle|].
      eapply Forall_impl; [exact Hall|]. cbn. intros; lia.
    + constructor; [exact IH|].
      rewrite insert_desc_permutation. constructor; [lia | exact Hall].
Qed.

Lemma order_by_rowid_desc_sorted table :
  StronglySorted (fun a b : Z * Row.t => b.1 <= a.1) (order_by_rowid_desc table).
Proof.
  induction table as [|x table IH]; [constructor|].
  unfold order_by_rowid_desc in *. cbn [foldr]. now apply insert_desc_sorted.
Qed.

(** X14. Whatever the table holds, [get_all_sessions] returns each stored
    row exactly once, with its rowid, and in an order in which the rowid
    never goes up. *)
Theorem get_all_sessions_sorted_permutation (db : DatabaseManager) :
  (fun s : Row.t * Z => (s.2, s.1)) <$> get_all_sessions db ≡ₚ sessions db /\
  StronglySorted (fun a b : Row.t * Z => b.2 <= a.2) (get_all_sessions db).
Proof.
  unfold get_all_sessions. split.
  - rewrite <- list_fmap_compose.
    rewrite (list_fmap_ext _ id (order_by_rowid_desc (sessions db)))
      by (intros i [k r] _; reflexivity).
    rewrite list_fmap_id. apply order_by_rowid_desc_permutation.
  - pose proof (order_by_rowid_desc_sorted (sessions db)) as H.
    induction H as [|x l Hsorted IH Hall]; [constructor|].
    rewrite fmap_cons. constructor; [exact IH|].
    rewrite Forall_fmap. eapply Forall_impl; [exact Hall|]. cbn. trivial.
Qed.

(** X15. Within the 64-bit range, a negative limit, or one that is at
    least the number of stored rows, makes [get_recent_sessions] return the
    whole listing of [get_all_sessions], reduced to (session_id, url,
    rowid). *)
Theorem get_recent_sessions_everything (limit : Z) (db : DatabaseManager) :
  int64 limit = true ->
  limit < 0 \/ Z.of_nat (length (sessions db)) <= limit ->
  get_recent_sessions limit db = Ok (summary <$> get_all_sessions db).
Proof.
  intros Hrange Hlimit. unfold get_recent_sessions, get_all_sessions, sql_limit.
  rewrite Hrange, <- list_fmap_compose. f_equal.
  destruct (Z.ltb_spec limit 0) as [Hneg|Hpos]; [reflexivity|].
  destruct Hlimit as [Hlt|Hge]; [lia|].
  rewrite take_ge; [reflexivity|].
  rewrite (Permutation_length (order_by_rowid_desc_permutation (sessions db))). lia.
Qed.

Lemma get_recent_sessions_everything_witness :
  get_recent_sessions 5 (db_after offline [first_save; second_save]) =
  Ok (summary <$> get_all_sessions (db_after offline [first_save; second_save])).
Proof.
  apply (get_recent_sessions_everything 5 (db_after offline [first_save; second_save])).
  - reflexivity.
  - right. vm_compute. discriminate.
Defined.


(** ** The content store *)

(** X16. [get_url_collection] names the collection of a URL by its hash
    alone, touches neither the sessions table nor the records of any
    collection, leaves the name cached, and asked twice answers the same
    and changes nothing the second time. *)
Theorem get_url_collection_stable (rt : Runtime) (url : string) (db : DatabaseManager) :
  (get_url_collection rt url db).1 = "url_" +:+ md5_hexdigest rt url /\
  sessions (get_url_collection rt url db).2 = sessions db /\
  (forall name, records (get_url_collection rt url db).2 name = records db name) /\
  (get_url_collection rt url db).1 ∈ collections (get_url_collection rt url db).2 /\
  get_url_collection rt url (get_url_collection rt url db).2 =
  get_url_collection rt url db.
Proof.
  unfold get_url_collection, records.
  case_bool_decide as Hcached; cbn [fst snd sessions chroma collections].
  - repeat split; [exact Hcached|].
    rewrite bool_decide_eq_true_2 by exact Hcached. reflexivity.
  - split; [reflexivity|]. split; [reflexivity|]. split; [|split].
    + intros name.
      destruct (chroma db !! ("url_" +:+ md5_hexdigest rt url)) as [old|] eqn:Eold;
        [reflexivity|].
      destruct (decide (name = "url_" +:+ md5_hexdigest rt url)) as [->|Hne].
      * rewrite lookup_insert_eq, Eold. reflexivity.
      * rewrite lookup_insert_ne by congruence. reflexivity.
    + set_solver.
    + rewrite bool_decide_eq_true_2 by set_solver. reflexivity.
Qed.

Lemma has_id_elem (id : string) (rs : list ChromaRecord.t) :
  has_id id rs = true -> exists entry, entry ∈ rs /\ ChromaRecord.id entry = id.
Proof.
  unfold has_id. intros H. apply existsb_exists in H as (entry & Hin & Heq).
  exists entry. split; [now apply list_elem_of_In | now apply String.eqb_eq].
Qed.

(** X17. After a save that succeeds, the collection of the URL holds what
    it held before, followed by the new entry (the content, the identifier
    as id, the metadata) when it held no entry under the identifier yet;
    an entry under an identifier that is already there is ignored. Every
    other collection holds what it held before. *)
Theorem save_analysis_content_entry (rt : Runtime) (session_id url content : string)
    (results : list (string * value)) (db : DatabaseManager) :
  (save_analysis rt session_id url content results db).1 = Ok tt ->
  records (save_analysis rt session_id url content results db).2 (bucket rt url) =
  (if has_id session_id (records db (bucket rt url))
   then records db (bucket rt url)
   else records db (bucket rt url) ++
        [{| ChromaRecord.document := content;
            ChromaRecord.metadata := content_metadata rt session_id url results;
            ChromaRecord.id := session_id |}]) /\
  (forall name,
      name <> bucket rt url ->
      records (save_analysis rt session_id url content results db).2 name =
      records db name).
Proof.
  rewrite save_analysis_outcome.
  destruct (insert_values rt session_id url results) as [row|e] eqn:Hrow; [|discriminate].
  intros Hok. split.
  - rewrite (save_analysis_records rt _ _ _ _ _ row _ Hrow).
    rewrite decide_True by reflexivity. unfold bucket, records in *.
    destruct (collection_add_error rt _ _ _); [discriminate | reflexivity].
  - intros name Hne. rewrite (save_analysis_records rt _ _ _ _ _ row _ Hrow).
    rewrite decide_False by exact Hne. reflexivity.
Qed.

Lemma save_analysis_content_entry_witness :
  records
    (save_analysis offline "id-1" "https://b.example/doc" "B"
       (Save.analysis_results second_save) (db_after offline [first_save])).2
    (bucket offline "https://a.example/doc") =
  records (db_after offline [first_save]) (bucket offline "https://a.example/doc").
Proof.
  apply (proj2 (save_analysis_content_entry offline "id-1" "https://b.example/doc" "B"
                  (Save.analysis_results second_save) (db_after offline [first_save])
                  eq_refl)).
  vm_compute. discriminate.
Defined.

(** Saving twice under one identifier and one URL leaves a single entry,
    the first one. *)
Example save_analysis_same_id_twice :
  records
    (save_analysis offline "id-1" "https://a.example/doc" "B"
       (Save.analysis_results second_save) (db_after offline [first_save])).2
    (bucket offline "https://a.example/doc") =
  [{| ChromaRecord.document := "A";
      ChromaRecord.metadata :=
        content_metadata offline "id-1" "https://a.example/doc"
          (Save.analysis_results first_save);
      ChromaRecord.id := "id-1" |}].
Proof. reflexivity. Qed.

Section StoreInvariants.
Variable rt : Runtime.

Lemma db_after_snoc history c :
  db_after rt (history ++ [c]) =
  (save_analysis rt (Save.session_id c) (Save.url c) (Save.content c)
     (Save.analysis_results c) (db_after rt history)).2.
Proof. unfold db_after. rewrite foldl_app. reflexivity. Qed.

Lemma get_url_collection_cache url db :
  dom (chroma db) = collections db ->
  dom (chroma (get_url_collection rt url db).2) =
  collections (get_url_collection rt url db).2.
Proof.
  intros Hinv. unfold get_url_collection.
  case_bool_decide as Hcached; cbn [snd chroma collections]; [exact Hinv|].
  destruct (chroma db !! ("url_" +:+ md5_hexdigest rt url)) as [old|] eqn:Eold.
  - rewrite <- Hinv. apply set_eq. intros x.
    rewrite elem_of_union, elem_of_singleton. split; [now right|].
    intros [->|H]; [|exact H]. apply elem_of_dom. eauto.
  - rewrite dom_insert_L, Hinv. reflexivity.
Qed.

Lemma get_url_collection_cached url db :
  (get_url_collection rt url db).1 ∈ collections (get_url_collection rt url db).2.
Proof.
  unfold get_url_collection.
  case_bool_decide as Hcached; cbn [fst snd collections]; [exact Hcached|].
  apply elem_of_union. left. now apply elem_of_singleton.
Qed.

Lemma save_analysis_cache session_id url content results db :
  dom (chroma db) = collections db ->
  dom (chroma (save_analysis rt session_id url content results db).2) =
  collections (save_analysis rt session_id url content results db).2.
Proof.
  intros Hinv. unfold save_analysis.
  destruct (insert_values rt session_id url results) as [row|e]; [|exact Hinv].
  match goal with
  | |- context [get_url_collection rt url ?d] =>
      pose proof (get_url_collection_cache url d Hinv) as Hcache;
      pose proof (get_url_collection_cached url d) as Hin;
      destruct (get_url_collection rt url d) as [collection self2]
  end.
  cbn [fst snd] in Hcache, Hin.
  destruct (collection_add_error rt _ _ _); cbn [snd]; [exact Hcache|].
  unfold collection_add. destruct (has_id _ _); [exact Hcache|].
  cbn [chroma collections]. rewrite dom_insert_L, Hcache. apply set_eq. intros x.
  rewrite elem_of_union, elem_of_singleton.
  split; [intros [->|H]; assumption | intros H; right; exact H].
Qed.

Lemma save_analysis_joined session_id url content results db :
  (forall rs,
      collection_add_error rt (bucket rt url) rs
        {| ChromaRecord.document := content;
           ChromaRecord.metadata := content_metadata rt session_id url results;
           ChromaRecord.id := session_id |} = None) ->
  (forall r, r ∈ sessions db ->
             exists entry, entry ∈ records db (bucket rt (Row.url r.2)) /\
                           ChromaRecord.id entry = Row.session_id r.2) ->
  forall r, r ∈ sessions (save_analysis rt session_id url content results db).2 ->
            exists entry,
              entry ∈ records (save_analysis rt session_id url content results db).2
                        (bucket rt (Row.url r.2)) /\
              ChromaRecord.id entry = Row.session_id r.2.
Proof.
  intros Haccepted Hinv r. rewrite save_analysis_sessions.
  destruct (insert_values rt session_id url results) as [row|e] eqn:Hrow.
  - rewrite elem_of_app, list_elem_of_singleton.
    intros [Hold| ->].
    + destruct (Hinv r Hold) as (entry & Hin & Hid). exists entry. split; [|exact Hid].
      rewrite (save_analysis_records rt _ _ _ _ _ row _ Hrow).
      case_decide as Hname; [|exact Hin].
      rewrite Haccepted. destruct (has_id _ _); [exact Hin|].
      rewrite elem_of_app. left. exact Hin.
    + destruct (insert_values_ids rt _ _ _ _ Hrow) as [Hid Hurl]. cbn [snd].
      rewrite (save_analysis_records rt _ _ _ _ _ row _ Hrow), Hurl, Hid.
      rewrite decide_True by reflexivity. rewrite Haccepted.
      destruct (has_id session_id (records db (bucket rt url))) eqn:Hthere.
      * apply has_id_elem, Hthere.
      * eexists. split.
        { rewrite elem_of_app. right. apply list_elem_of_singleton. reflexivity. }
        reflexivity.
  - intros Hold. replace (save_analysis _ _ _ _ _ _).2 with db.
    + exact (Hinv r Hold).
    + unfold save_analysis. rewrite Hrow. reflexivity.
Qed.
End StoreInvariants.

(** X18. After any history of saves the cache of collection handles and the
    content store agree: the cached names are exactly the collections that
    exist. *)
Theorem collections_cache_matches_store (rt : Runtime) (history : list Save.t) :
  dom (chroma (db_after rt history)) = collections (db_after rt history).
Proof.
  induction history as [|c history IH] using rev_ind.
  - cbn. apply dom_empty_L.
  - rewrite db_after_snoc. apply save_analysis_cache, IH.
Qed.

(** X19. After any history of saves whose entries [collection.add]
    accepted, every row of the sessions table has a content entry under the
    same identifier, in the collection of the row's URL. *)
Theorem every_session_has_content (rt : Runtime) (history : list Save.t) :
  (forall c rs,
      c ∈ history ->
      collection_add_error rt (bucket rt (Save.url c)) rs
        {| ChromaRecord.document := Save.content c;
           ChromaRecord.metadata :=
             content_metadata rt (Save.session_id c) (Save.url c)
               (Save.analysis_results c);
           ChromaRecord.id := Save.session_id c |} = None) ->
  forall r, r ∈ sessions (db_after rt history) ->
            exists entry,
              entry ∈ records (db_after rt history) (bucket rt (Row.url r.2)) /\
              ChromaRecord.id entry = Row.session_id r.2.
Proof.
  induction history as [|c history IH] using rev_ind; intros Haccepted.
  - intros r Hr. inversion Hr.
  - rewrite db_after_snoc. apply save_analysis_joined.
    + intros rs. apply Haccepted. apply elem_of_app. right. now apply list_elem_of_singleton.
    + apply IH. intros c' rs Hc'. apply Haccepted. apply elem_of_app. now left.
Qed.

Lemma every_session_has_content_witness :
  exists entry,
    entry ∈ records (db_after offline [first_save])
              (bucket offline "https://a.example/doc") /\
    ChromaRecord.id entry = "id-1".
Proof.
  apply (every_session_has_content offline [first_save]) with (r := (1, first_row)).
  - intros c rs Hc. apply list_elem_of_singleton in Hc. subst c. reflexivity.
  - vm_compute. left.
Defined.

(** X26. Two saves of the same URL that both succeed, under two different
    identifiers the collection does not hold yet, put their entries into
    the same collection, one after the other. *)
Theorem same_url_same_collection (rt : Runtime) (url : string)
    (id1 content1 : string) (results1 : list (string * value))
    (id2 content2 : string) (results2 : list (string * value))
    (db : DatabaseManager) :
  id1 <> id2 ->
  has_id id1 (records db (bucket rt url)) = false ->
  has_id id2 (records db (bucket rt url)) = false ->
  (save_analysis rt id1 url content1 results1 db).1 = Ok tt ->
  (save_analysis rt id2 url content2 results2
     (save_analysis rt id1 url content1 results1 db).2).1 = Ok tt ->
  records
    (save_analysis rt id2 url content2 results2
       (save_analysis rt id1 url content1 results1 db).2).2 (bucket rt url) =
  records db (bucket rt url) ++
  [{| ChromaRecord.document := content1;
      ChromaRecord.metadata := content_metadata rt id1 url results1;
      ChromaRecord.id := id1 |};
   {| ChromaRecord.document := content2;
      ChromaRecord.metadata := content_metadata rt id2 url results2;
      ChromaRecord.id := id2 |}].
Proof.
  intros Hne Hnew1 Hnew2 Hok1 Hok2.
  assert (Hfirst :
            records (save_analysis rt id1 url content1 results1 db).2 (bucket rt url) =
            records db (bucket rt url) ++
            [{| ChromaRecord.document := content1;
                ChromaRecord.metadata := content_metadata rt id1 url results1;
                ChromaRecord.id := id1 |}]).
  { rewrite save_analysis_outcome in Hok1.
    destruct (insert_values rt id1 url results1) as [row1|] eqn:H1; [|discriminate].
    rewrite (save_analysis_records rt _ _ _ _ _ row1 _ H1).
    rewrite decide_True by reflexivity. rewrite Hnew1.
    unfold bucket, records in *.
    destruct (collection_add_error rt _ _ _); [discriminate | reflexivity]. }
  rewrite save_analysis_outcome in Hok2.
  destruct (insert_values rt id2 url results2) as [row2|] eqn:H2; [|discriminate].
  rewrite (save_analysis_records rt _ _ _ _ _ row2 _ H2).
  rewrite decide_True by reflexivity. rewrite Hfirst.
  assert (Hnew : has_id id2
                   (records db (bucket rt url) ++
                    [{| ChromaRecord.document := content1;
                        ChromaRecord.metadata := content_metadata rt id1 url results1;
                        ChromaRecord.id := id1 |}]) = false).
  { unfold has_id in *. rewrite existsb_app, Hnew2. cbn.
    destruct (String.eqb_spec id1 id2); [contradiction | reflexivity]. }
  rewrite Hnew.
  unfold bucket, records in *. rewrite Hfirst in Hok2.
  destruct (collection_add_error rt _ _ _); [discriminate|].
  rewrite <- app_assoc. reflexivity.
Qed.

Lemma same_url_same_collection_witness :
  records
    (save_analysis offline "id-2" "https://a.example/doc" "B"
       (Save.analysis_results second_save)
       (save_analysis offline "id-1" "https://a.example/doc" "A"
          (Save.analysis_results first_save) init_databases).2).2
    (bucket offline "https://a.example/doc") =
  records init_databases (bucket offline "https://a.example/doc") ++
  [{| ChromaRecord.document := "A";
      ChromaRecord.metadata :=
        content_metadata offline "id-1" "https://a.example/doc"
          (Save.analysis_results first_save);
      ChromaRecord.id := "id-1" |};
   {| ChromaRecord.document := "B";
      ChromaRecord.metadata :=
        content_metadata offline "id-2" "https://a.example/doc"
          (Save.analysis_results second_save);
      ChromaRecord.id := "id-2" |}].
Proof.
  apply (same_url_same_collection offline "https://a.example/doc"
           "id-1" "A" (Save.analysis_results first_save)
           "id-2" "B" (Save.analysis_results second_save) init_databases);
    [discriminate | reflexivity ..].
Defined.


(** ** The analyze handler *)

Section HandlerFacts.
Variable rt : Runtime.
Variable analyzer : DocumentAnalyzer.

(** [analyze_document] changes neither the session state nor the page. *)
Lemma analyze_document_frame session_id url text w :
  session_state (analyze_document rt analyzer session_id url text w).2 = session_state w /\
  page (analyze_document rt analyzer session_id url text w).2 = page w.
Proof.
  destruct (flesch_reading_ease rt text) as [score|e] eqn:Hscore.
  - destruct (analyze_document_scored rt analyzer session_id url text w score Hscore)
      as (r & s & c & y & w4 & _ & Hstate & Hpage & _ & _ & ->).
    split; assumption.
  - unfold analyze_document, bind, lift. rewrite Hscore. split; reflexivity.
Qed.

Lemma analyze_url_failed uuid url w :
  Extraction.success (fetch_article_text rt url) = false ->
  analyze_url rt analyzer uuid url w =
  (Returned,
   render (StError ("Failed to extract content: " +:+
                    default "Unknown error"
                      (Extraction.error (fetch_article_text rt url)))) w).
Proof. intros Hfail. unfold analyze_url. rewrite Hfail. reflexivity. Qed.

Lemma analyze_url_raised uuid url text w e w3 :
  Extraction.success (fetch_article_text rt url) = true ->
  Extraction.content (fetch_article_text rt url) = Some text ->
  analyze_document rt analyzer uuid url text (previewed text w) = (Raise e, w3) ->
  analyze_url rt analyzer uuid url w =
  (Returned, render (StError ("Error: " +:+ exn_text rt e)) w3).
Proof.
  intros Hok Htext Hrun. unfold analyze_url. rewrite Hok, Htext.
  unfold previewed in Hrun. cbn zeta. rewrite Hrun. reflexivity.
Qed.

Lemma analyze_url_completed uuid url text w score r s c y w3 :
  Extraction.success (fetch_article_text rt url) = true ->
  Extraction.content (fetch_article_text rt url) = Some text ->
  analyze_document rt analyzer uuid url text (previewed text w) =
  (Ok (make_results score r s c y), w3) ->
  analyze_url rt analyzer uuid url w =
  (Rerun,
   with_state w3
     {| current_page := "results";
        selected_session := Some uuid;
        analysis_results :=
          Some (shown_results uuid url text score r s c y);
        article_text := Some text |}).
Proof.
  intros Hok Htext Hrun. unfold analyze_url. rewrite Hok, Htext. cbn zeta.
  pose proof (analyze_document_frame uuid url text (previewed text w))
    as [Hstate _].
  unfold previewed in Hrun, Hstate. rewrite Hrun in *. cbn [snd] in Hstate.
  cbn [displayed_results make_results getitem dict_lookup String.eqb Ascii.eqb
         Bool.eqb rbind].
  unfold with_state. cbn [session_state db_manager outbox page
                            current_page selected_session analysis_results article_text].
  rewrite Hstate. reflexivity.
Qed.

Lemma analyze_url_untexted uuid url w :
  Extraction.success (fetch_article_text rt url) = true ->
  Extraction.content (fetch_article_text rt url) = None ->
  (analyze_url rt analyzer uuid url w).1 = Returned.
Proof.
  intros Hok Hnone. unfold analyze_url. rewrite Hok, Hnone. cbn zeta.
  unfold analyze_document_none, bind, lift.
  destruct (flesch_reading_ease_none rt); reflexivity.
Qed.
End HandlerFacts.

(** X20. When the fetch succeeds and the analysis completes, [analyze_url]
    restarts the script on the results page with the new identifier
    selected; the session state keeps the article text and a dictionary of
    the identifier, the URL, the four critiques, the article text and the
    numeric score under ['readability_score']; stores and requests are as
    the analysis left them. *)
Theorem analyze_url_success (rt : Runtime) (analyzer : DocumentAnalyzer)
    (uuid url text : string) (w : World) (results : list (string * value))
    (w3 : World) :
  Extraction.success (fetch_article_text rt url) = true ->
  Extraction.content (fetch_article_text rt url) = Some text ->
  analyze_document rt analyzer uuid url text (previewed text w) = (Ok results, w3) ->
  exists score readability structure completeness style,
    results = make_results score readability structure completeness style /\
    analyze_url rt analyzer uuid url w =
    (Rerun,
     {| db_manager := db_manager w3;
        outbox := outbox w3;
        session_state :=
          {| current_page := "results";
             selected_session := Some uuid;
             analysis_results :=
               Some (shown_results uuid url text
                       score readability structure completeness style);
             article_text := Some text |};
        page := page w ++
                [StMarkdown (format_markdown_for_display text 1500)] |}).
Proof.
  intros Hok Htext Hrun.
  destruct (analyze_document_ok rt analyzer _ _ _ _ _ _ Hrun)
    as (score & r & s & c & y & _ & -> & _).
  exists score, r, s, c, y. split; [reflexivity|].
  rewrite (analyze_url_completed rt analyzer uuid url text w score r s c y w3 Hok Htext Hrun).
  pose proof (analyze_document_frame rt analyzer uuid url text (previewed text w))
    as [_ Hpage].
  rewrite Hrun in Hpage. cbn [snd] in Hpage.
  unfold with_state. rewrite Hpage. reflexivity.
Qed.

Lemma analyze_url_success_witness :
  exists score readability structure completeness style,
    e2e_results = make_results score readability structure completeness style /\
    analyze_url online keyed "id-1" "https://example.com/doc" fresh_world =
    (Rerun,
     {| db_manager := db_manager (analyze_document online keyed "id-1"
                                    "https://example.com/doc" "Hello world."
                                    (previewed "Hello world." fresh_world)).2;
        outbox := outbox (analyze_document online keyed "id-1"
                            "https://example.com/doc" "Hello world."
                            (previewed "Hello world." fresh_world)).2;
        session_state :=
          {| current_page := "results";
             selected_session := Some "id-1";
             analysis_results :=
               Some (shown_results "id-1" "https://example.com/doc" "Hello world."
                       score readability structure completeness style);
             article_text := Some "Hello world." |};
        page := page fresh_world ++
                [StMarkdown (format_markdown_for_display "Hello world." 1500)] |}).
Proof.
  apply (analyze_url_success online keyed "id-1" "https://example.com/doc"
           "Hello world." fresh_world e2e_results
           (analyze_document online keyed "id-1" "https://example.com/doc" "Hello world."
              (previewed "Hello world." fresh_world)).2).
  - reflexivity.
  - reflexivity.
  - vm_compute. reflexivity.
Defined.

(** X21. When the fetch succeeds but the analysis raises, [analyze_url]
    returns after rendering "Error: " and the exception's text: the script
    is not restarted, the page shown and the selected session stay what
    they were and no results are kept; only the article text and its
    preview remain from the attempt. *)
Theorem analyze_url_analysis_error (rt : Runtime) (analyzer : DocumentAnalyzer)
    (uuid url text : string) (w : World) (e : pyexn) (w3 : World) :
  Extraction.success (fetch_article_text rt url) = true ->
  Extraction.content (fetch_article_text rt url) = Some text ->
  analyze_document rt analyzer uuid url text (previewed text w) = (Raise e, w3) ->
  analyze_url rt analyzer uuid url w =
  (Returned,
   {| db_manager := db_manager w3;
      outbox := outbox w3;
      session_state :=
        {| current_page := current_page (session_state w);
           selected_session := selected_session (session_state w);
           analysis_results := analysis_results (session_state w);
           article_text := Some text |};
      page := page w ++
              [StMarkdown (format_markdown_for_display text 1500);
               StError ("Error: " +:+ exn_text rt e)] |}).
Proof.
  intros Hok Htext Hrun.
  rewrite (analyze_url_raised rt analyzer uuid url text w e w3 Hok Htext Hrun).
  pose proof (analyze_document_frame rt analyzer uuid url text (previewed text w))
    as [Hstate Hpage].
  rewrite Hrun in Hstate, Hpage. cbn [snd] in Hstate, Hpage.
  unfold render. rewrite Hstate, Hpage. cbn. rewrite <- app_assoc. reflexivity.
Qed.

Lemma analyze_url_analysis_error_witness :
  analyze_url no_textstat keyed "id-1" "https://example.com/doc" fresh_world =
  (Returned,
   {| db_manager := init_databases;
      outbox := [];
      session_state :=
        {| current_page := "home"; selected_session := None;
           analysis_results := None; article_text := Some "Hello world." |};
      page := [StMarkdown "Hello world."; StError "Error: textstat failed"] |}).
Proof.
  apply (analyze_url_analysis_error no_textstat keyed "id-1" "https://example.com/doc"
           "Hello world." fresh_world (LibraryError "textstat failed")
           (previewed "Hello world." fresh_world)); reflexivity.
Defined.

(** When the readability scorer raises, [analyze_document] raises the
    same exception before anything else happens: no request is sent and
    neither store is written. *)
Lemma analyze_document_scorer_error (rt : Runtime) (self : DocumentAnalyzer)
    (session_id url text : string) (w : World) (e : pyexn) :
  flesch_reading_ease rt text = Raise e ->
  analyze_document rt self session_id url text w = (Raise e, w).
Proof.
  intros Hscore. unfold analyze_document, bind, lift. rewrite Hscore. reflexivity.
Qed.

Lemma analyze_document_scorer_error_witness :
  analyze_document no_textstat keyed "id-1" "https://example.com/doc" "Hello world."
    fresh_world = (Raise (LibraryError "textstat failed"), fresh_world).
Proof.
  apply (analyze_document_scorer_error no_textstat keyed "id-1" "https://example.com/doc"
           "Hello world." fresh_world (LibraryError "textstat failed")).
  reflexivity.
Defined.

(** X28. When the fetch reports success with [None] as content, the
    analysis cannot start: [analyze_url] keeps [None] as the article text,
    shows an empty preview and "Error: " with the text of the exception
    (the scorer's, or the [TypeError] of slicing [None]), sends no request,
    writes to neither store and returns without restarting the script. *)
Theorem analyze_url_none_content (rt : Runtime) (analyzer : DocumentAnalyzer)
    (uuid url : string) (w : World) :
  Extraction.success (fetch_article_text rt url) = true ->
  Extraction.content (fetch_article_text rt url) = None ->
  analyze_url rt analyzer uuid url w =
  (Returned,
   {| db_manager := db_manager w;
      outbox := outbox w;
      session_state :=
        {| current_page := current_page (session_state w);
           selected_session := selected_session (session_state w);
           analysis_results := analysis_results (session_state w);
           article_text := None |};
      page := page w ++
              [StMarkdown EmptyString;
               StError ("Error: " +:+
                        exn_text rt
                          match flesch_reading_ease_none rt with
                          | Raise e => e
                          | Ok _ => TypeErrorSlice VNone
                          end)] |}).
Proof.
  intros Hok Hnone. unfold analyze_url. rewrite Hok, Hnone. cbn zeta.
  unfold analyze_document_none, bind, lift.
  destruct (flesch_reading_ease_none rt) as [score|e];
    unfold render, with_state; cbn; rewrite <- app_assoc; reflexivity.
Qed.

Lemma analyze_url_none_content_witness :
  analyze_url (scripted failed_page (answer_ok assessment_ok)) keyed "id-1"
    "https://nowhere.invalid/doc" fresh_world =
  (Returned,
   {| db_manager := init_databases;
      outbox := [];
      session_state := blank_state;
      page := [StMarkdown EmptyString; StError "Error: expected a string"] |}).
Proof.
  apply (analyze_url_none_content (scripted failed_page (answer_ok assessment_ok)) keyed
           "id-1" "https://nowhere.invalid/doc" fresh_world); reflexivity.
Defined.


(** ** The pages *)

Lemma results_page_selected session_id w :
  session_id <> EmptyString ->
  selected_session (session_state w) = Some session_id ->
  results_page w =
  match get_session session_id (db_manager w) with
  | Some row =>
      Ok (DisplayResults (VStr (Row.session_id row)) (VStr (Row.url row))
            (cell_value (Row.readability row)) (cell_value (Row.structure row))
            (cell_value (Row.completeness row)) (cell_value (Row.style row)) VNone)
  | None => Ok NoResults
  end.
Proof.
  intros Hne Hsel. unfold results_page. rewrite Hsel.
  destruct session_id as [|c s]; [contradiction|].
  cbn [truthy from_option id].
  destruct (get_session (String c s) (db_manager w)); reflexivity.
Qed.

(** X22. Loading a session with a non-empty identifier leads to a results
    page drawn from the stored row alone, with no score passed on; when no
    row carries the identifier the page shows "No results", whatever the
    session state still holds from an earlier analysis. *)
Theorem load_session_shows_stored_row (session_id : string) (w : World) :
  session_id <> EmptyString ->
  (load_session session_id w).1 = Rerun /\
  current_page (session_state (load_session session_id w).2) = "results" /\
  results_page (load_session session_id w).2 =
  match get_session session_id (db_manager w) with
  | Some row =>
      Ok (DisplayResults (VStr (Row.session_id row)) (VStr (Row.url row))
            (cell_value (Row.readability row)) (cell_value (Row.structure row))
            (cell_value (Row.completeness row)) (cell_value (Row.style row)) VNone)
  | None => Ok NoResults
  end.
Proof.
  intros Hne. split; [reflexivity|]. split; [reflexivity|].
  apply (results_page_selected session_id (load_session session_id w).2 Hne).
  reflexivity.
Qed.

Lemma load_session_shows_stored_row_witness :
  results_page (load_session "id-1" e2e_world).2 =
  Ok (DisplayResults (VStr "id-1") (VStr "https://example.com/doc")
        (VStr assessment_ok) (VStr assessment_ok) (VStr assessment_ok)
        (VStr assessment_ok) VNone) /\
  results_page (load_session "id-9" e2e_world).2 = Ok NoResults.
Proof.
  split.
  - destruct (load_session_shows_stored_row "id-1" e2e_world ltac:(discriminate))
      as (_ & _ & Hpage).
    rewrite Hpage. reflexivity.
  - destruct (load_session_shows_stored_row "id-9" e2e_world ltac:(discriminate))
      as (_ & _ & Hpage).
    rewrite Hpage. reflexivity.
Defined.

(** X23. Right after an analysis that completed under a non-empty
    identifier not stored before, the results page is drawn from the row
    just stored and passes no score on, although the session state holds
    the score under ['readability_score']. *)
Theorem results_page_after_analysis (rt : Runtime) (analyzer : DocumentAnalyzer)
    (uuid url : string) (w : World) :
  uuid <> EmptyString ->
  get_session uuid (db_manager w) = None ->
  (analyze_url rt analyzer uuid url w).1 = Rerun ->
  exists row score,
    get_session uuid (db_manager (analyze_url rt analyzer uuid url w).2) = Some row /\
    results_page (analyze_url rt analyzer uuid url w).2 =
    Ok (DisplayResults (VStr uuid) (VStr url)
          (cell_value (Row.readability row)) (cell_value (Row.structure row))
          (cell_value (Row.completeness row)) (cell_value (Row.style row)) VNone) /\
    dict_lookup "readability_score"
      (default [] (analysis_results (session_state (analyze_url rt analyzer uuid url w).2)))
    = Some (VFloat score).
Proof.
  intros Hne Hfresh Hrerun.
  destruct (Extraction.success (fetch_article_text rt url)) eqn:Hok.
  2:{ rewrite (analyze_url_failed rt analyzer uuid url w Hok) in Hrerun. discriminate. }
  destruct (Extraction.content (fetch_article_text rt url)) as [text|] eqn:Htext.
  2:{ rewrite (analyze_url_untexted rt analyzer uuid url w Hok Htext) in Hrerun.
      discriminate. }
  destruct (analyze_document rt analyzer uuid url text (previewed text w))
    as [[results|e] w3] eqn:Hrun.
  2:{ rewrite (analyze_url_raised rt analyzer uuid url text w e w3 Hok Htext Hrun)
        in Hrerun.
      discriminate. }
  destruct (analyze_document_ok rt analyzer _ _ _ _ _ _ Hrun)
    as (score & r & s & c & y & _ & -> & Hsave).
  rewrite (analyze_url_completed rt analyzer uuid url text w score r s c y w3
             Hok Htext Hrun).
  cbn [snd]. cbn [previewed render with_state db_manager] in Hsave.
  destruct (save_analysis_ok rt _ _ _ _ _ _ Hsave) as (row & Hrow & _ & _).
  assert (Hget : get_session uuid (db_manager w3) = Some row).
  { replace (db_manager w3) with
      (save_analysis rt uuid url text
         (make_results score r s c y) (db_manager w)).2 by now rewrite Hsave.
    apply get_session_after_save; assumption. }
  exists row, score. split; [exact Hget|]. split; [|reflexivity].
  match goal with
  | |- results_page ?w' = _ =>
      rewrite (results_page_selected uuid w' Hne); [|reflexivity]
  end.
  cbn [with_state db_manager]. rewrite Hget.
  destruct (insert_values_ids rt _ _ _ _ Hrow) as [-> ->]. reflexivity.
Qed.

Lemma results_page_after_analysis_witness :
  exists row score,
    get_session "id-1"
      (db_manager (analyze_url online keyed "id-1" "https://example.com/doc"
                     fresh_world).2) = Some row /\
    results_page (analyze_url online keyed "id-1" "https://example.com/doc"
                    fresh_world).2 =
    Ok (DisplayResults (VStr "id-1") (VStr "https://example.com/doc")
          (cell_value (Row.readability row)) (cell_value (Row.structure row))
          (cell_value (Row.completeness row)) (cell_value (Row.style row)) VNone) /\
    dict_lookup "readability_score"
      (default [] (analysis_results
                     (session_state (analyze_url online keyed "id-1"
                                       "https://example.com/doc" fresh_world).2)))
    = Some (VFloat score).
Proof.
  apply (results_page_after_analysis online keyed "id-1" "https://example.com/doc"
           fresh_world).
  - discriminate.
  - reflexivity.
  - vm_compute. reflexivity.
Defined.

(** X24. On the home page the stores are written and requests are sent
    only when the Analyze button was pressed on a non-empty URL whose fetch
    succeeded; with the button pressed on an empty URL the page only
    warns. *)
Theorem render_home_page_effects (rt : Runtime) (analyzer : DocumentAnalyzer)
    (uuid url : string) (analyze_button : bool) (w : World) :
  (db_manager (render_home_page (analyze_url rt analyzer uuid) url analyze_button w).2
   <> db_manager w \/
   outbox (render_home_page (analyze_url rt analyzer uuid) url analyze_button w).2
   <> outbox w ->
   analyze_button = true /\ url <> EmptyString /\
   Extraction.success (fetch_article_text rt url) = true) /\
  (analyze_button = true -> url = EmptyString ->
   render_home_page (analyze_url rt analyzer uuid) url analyze_button w =
   (HomeWarning "Please enter a URL to analyze.", w)).
Proof.
  split.
  - unfold render_home_page.
    destruct analyze_button; cbn [andb]; [|intros [H|H]; contradiction].
    destruct url as [|c url]; cbn [truthy negb]; [intros [H|H]; contradiction|].
    destruct (Extraction.success (fetch_article_text rt (String c url))) eqn:Hok.
    + intros _. repeat split. discriminate.
    + rewrite (analyze_url_failed rt analyzer uuid (String c url) w Hok).
      cbn. intros [H|H]; contradiction.
  - intros -> ->. reflexivity.
Qed.

Lemma render_home_page_effects_witness :
  Extraction.success (fetch_article_text online "https://example.com/doc") = true /\
  render_home_page (analyze_url online keyed "id-1") EmptyString true fresh_world =
  (HomeWarning "Please enter a URL to analyze.", fresh_world).
Proof.
  destruct (render_home_page_effects online keyed "id-1" "https://example.com/doc"
              true fresh_world) as [Hwrites _].
  destruct (render_home_page_effects online keyed "id-1" EmptyString true fresh_world)
    as [_ Hwarns].
  split.
  - apply Hwrites. right. vm_compute. discriminate.
  - apply Hwarns; reflexivity.
Defined.

(** ** The history page *)

Lemma unique_by_id (table : list (Z * Row.t)) (a b : Z * Row.t) :
  NoDup ((fun r => Row.session_id r.2) <$> table) ->
  a ∈ table -> b ∈ table -> Row.session_id a.2 = Row.session_id b.2 -> a = b.
Proof.
  induction table as [|x table IH]; intros Hnodup Ha Hb Hid; [inversion Ha|].
  rewrite fmap_cons in Hnodup. apply NoDup_cons in Hnodup as [Hx Hnodup].
  apply elem_of_cons in Ha as [->|Ha]; apply elem_of_cons in Hb as [->|Hb].
  - reflexivity.
  - exfalso. apply Hx. rewrite Hid. apply list_elem_of_fmap. eauto.
  - exfalso. apply Hx. rewrite <- Hid. apply list_elem_of_fmap. eauto.
  - now apply IH.
Qed.

Lemma get_all_sessions_elem (db : DatabaseManager) (s : Row.t * Z) :
  s ∈ get_all_sessions db <-> (s.2, s.1) ∈ sessions db.
Proof.
  unfold get_all_sessions. rewrite list_elem_of_fmap.
  setoid_rewrite (order_by_rowid_desc_permutation (sessions db)).
  split.
  - intros ([k r] & -> & Hin). exact Hin.
  - intros Hin. exists (s.2, s.1). split; [now destruct s | exact Hin].
Qed.

(** X25. When no two rows share an identifier, every entry of the history
    page loads the very row it lists: [get_session] on its identifier
    returns that row, and the label of the selector shows that row's URL
    after the first eight characters of the identifier. *)
Theorem history_lists_what_loads (db : DatabaseManager) (s : Row.t * Z) :
  NoDup ((fun r => Row.session_id r.2) <$> sessions db) ->
  s ∈ get_all_sessions db ->
  Row.session_id s.1 ∈ history_options (get_all_sessions db) /\
  get_session (Row.session_id s.1) db = Some s.1 /\
  history_label (get_all_sessions db) (Row.session_id s.1) =
  slice_to 8 (Row.session_id s.1) +:+ " - " +:+ Row.url s.1.
Proof.
  intros Hnodup Hs.
  assert (Hstored : (s.2, s.1) ∈ sessions db) by now apply get_all_sessions_elem.
  split; [|split].
  - unfold history_options. apply list_elem_of_fmap. eauto.
  - unfold get_session.
    destruct (List.find _ (sessions db)) as [r|] eqn:E.
    + apply find_session_some in E as [Hid Hin].
      rewrite (unique_by_id (sessions db) r (s.2, s.1) Hnodup Hin Hstored Hid).
      reflexivity.
    + exfalso. rewrite find_session_none in E. now apply (E _ Hstored).
  - unfold history_label.
    destruct (List.find _ (get_all_sessions db)) as [s'|] eqn:E.
    + apply List.find_some in E as [Hin Hid].
      apply list_elem_of_In, get_all_sessions_elem in Hin.
      apply String.eqb_eq in Hid.
      pose proof (unique_by_id (sessions db) _ _ Hnodup Hin Hstored Hid) as Heq.
      injection Heq as _ <-. reflexivity.
    + exfalso.
      pose proof (List.find_none _ _ E s) as Hnone.
      specialize (Hnone (proj1 (list_elem_of_In _ _) Hs)). cbn beta in Hnone.
      rewrite String.eqb_refl in Hnone. discriminate.
Qed.

Lemma history_lists_what_loads_witness :
  get_session "id-1" (db_after offline [first_save]) = Some first_row /\
  history_label (get_all_sessions (db_after offline [first_save])) "id-1" =
  "id-1 - https://a.example/doc".
Proof.
  destruct (history_lists_what_loads (db_after offline [first_save]) (first_row, 1))
    as (_ & Hload & Hlabel).
  - vm_compute. apply NoDup_singleton.
  - vm_compute. left.
  - split; [exact Hload | exact Hlabel].
Defined.

(** With two rows under one identifier the label shows the newer row's URL
    while loading returns the older row. *)
Example history_with_duplicate_ids :
  history_label (get_all_sessions (db_after offline [first_save; second_save])) "id-1" =
  "id-1 - https://b.example/doc" /\
  get_session "id-1" (db_after offline [first_save; second_save]) = Some first_row.
Proof. split; reflexivity. Qed.
